(** * DSA Sheet front end: progress store, optimistic toggle and statistics

    A shallow embedding of the two stateful React components of the
    repository,

    - [TopicDetail] (the second component held by [src/components/Navbar.js],
      from its line 53 on):
      the list [userProgress] of progress records, the set
      [updatingProblems] of in-flight identifiers and the asynchronous
      handler [toggleProblemProgress];
    - [Dashboard] ([src/pages/Dashboard.js]): [fetchData], which derives
      the per-problem completion flags and the global statistics, and the
      per-topic figures of the topic cards.

    React state is modelled by explicit state passing: a handler is a
    function from the component state to the component state.  An
    [async] handler is cut at its [await]: the part before it and the part
    after it are two state transformers, and the outcome of the awaited
    request is an argument of the second.  JavaScript numbers are IEEE 754
    binary64 values, modelled by Rocq's primitive floats. *)

From Stdlib Require Import ZArith List String Lia DecimalString.
From Stdlib Require Import PrimFloat SpecFloat FloatOps Uint63.
From stdpp Require Import gmap strings list.

#[local] Open Scope string_scope.

(** ** JavaScript numbers *)

Module JsNumber.

(** A JavaScript Number. *)
Definition Number : Type := float.

(** The Number holding an array length or a count (exact below 2^53). *)
Definition of_nat (n : nat) : Number :=
  PrimFloat.of_uint63 (Uint63.of_Z (Z.of_nat n)).

(** The Number holding an integer whose magnitude is below 2^53. *)
Definition of_Z (z : Z) : Number :=
  match z with
  | Z0 => PrimFloat.zero
  | Zpos _ => PrimFloat.of_uint63 (Uint63.of_Z z)
  | Zneg _ => PrimFloat.opp (PrimFloat.of_uint63 (Uint63.of_Z (Z.opp z)))
  end.

(** [floor (n + 1/2)] for the finite Number [(-1)^s * m * 2^e], computed
    on integers: the integer closest to the Number, the one closer to
    +infinity at a tie. *)
Definition round_half_up (s : bool) (m : positive) (e : Z) : Z :=
  let v := if s then Z.neg m else Z.pos m in
  if (0 <=? e)%Z then (v * 2 ^ e)%Z
  else let d := (2 ^ (- e))%Z in ((2 * v + d) / (2 * d))%Z.

(** [Math.round(n)] (ECMAScript, Math.round): a Number that is not finite
    or is a zero is returned as it is; otherwise the closest integral
    Number, the one closer to +infinity at a tie, and a zero of the
    sign of [n] when that integer is 0. *)
Definition Math_round (n : Number) : Number :=
  match Prim2SF n with
  | S754_finite s m e =>
      let k := round_half_up s m e in
      if (k =? 0)%Z then (if s then PrimFloat.neg_zero else PrimFloat.zero)
      else if (0 <=? e)%Z then n
      else of_Z k
  | _ => n
  end.

(** [a > b] on Numbers ([false] when one of them is NaN). *)
Definition gt (a b : Number) : bool := PrimFloat.ltb b a.

(** The integer a Number denotes, when it is finite and integral. *)
Definition to_Z (n : Number) : option Z :=
  match Prim2SF n with
  | S754_zero _ => Some 0%Z
  | S754_finite s m e =>
      let v := if s then Z.neg m else Z.pos m in
      if (0 <=? e)%Z then Some (v * 2 ^ e)%Z
      else if (v mod 2 ^ (- e) =? 0)%Z then Some (v / 2 ^ (- e))%Z
      else None
  | _ => None
  end.

(** The expression both components use for a percentage,
    [total > 0 ? Math.round((completed / total) * 100) : 0]
    (Navbar.js line 167, Dashboard.js lines 56 and 199), on two counts. *)
Definition percentageOf (completed total : nat) : Number :=
  if (0 <? total)%nat
  then Math_round
         (PrimFloat.mul (PrimFloat.div (of_nat completed) (of_nat total))
                        (of_nat 100))
  else PrimFloat.zero.

End JsNumber.

(** ** Data received from the backend *)

(** A progress record.  [problemId] stands for [progress.problemId._id],
    the only field of the populated reference the components read. *)
Record ProgressRecord : Type := {
  problemId : string;
  completed : bool;
  _id : string
}.

(** A problem; of its fields only [_id] enters the logic (title,
    description, difficulty, tags and links are only displayed). *)
Record Problem : Type := {
  problem_id : string;
  title : string
}.

(** A topic.  [problems] is [None] when the field is missing, the case the
    guards [topic.problems ? ... : 0] of Dashboard.js test for. *)
Record Topic : Type := {
  topic_id : string;
  topic_title : string;
  problems : option (list Problem)
}.

(** The outcome of an awaited request: the response data, or a rejection
    (network error or a status outside 2xx). *)
Inductive Response (A : Type) : Type :=
| Fulfilled (data : A)
| Rejected.
Arguments Fulfilled {A} data.
Arguments Rejected {A}.

(** How the promise returned by an [async] function settles. *)
Inductive Settled : Type :=
| Resolved_undefined
| Rejected_with (error : string).

(** ** TopicDetail *)

Module TopicDetail.

(** The component state (the four [useState] cells) together with the
    names of the events dispatched on [window] so far. *)
Record State : Type := {
  topic : option Topic;
  userProgress : list ProgressRecord;
  loading : bool;
  updatingProblems : gset string;
  dispatched : list string
}.

(** The state at mount. *)
Definition initial : State :=
  {| topic := None; userProgress := []; loading := true;
     updatingProblems := ∅; dispatched := [] |}.

(** [fetchData] (Navbar.js lines 64-78): both responses or none
    ([Promise.all]); the store is replaced wholesale. *)
Definition fetchData (topicResponse : Response Topic)
    (progressResponse : Response (list ProgressRecord)) (st : State) : State :=
  match topicResponse, progressResponse with
  | Fulfilled t, Fulfilled progress =>
      {| topic := Some t; userProgress := progress; loading := false;
         updatingProblems := updatingProblems st; dispatched := dispatched st |}
  | _, _ =>
      {| topic := topic st; userProgress := userProgress st; loading := false;
         updatingProblems := updatingProblems st; dispatched := dispatched st |}
  end.

(** [isProblemCompleted] (Navbar.js lines 139-142), on the list it reads. *)
Definition isProblemCompleted (userProgress : list ProgressRecord)
    (problemId0 : string) : bool :=
  match List.find (fun p => String.eqb (problemId p) problemId0) userProgress with
  | Some progress => completed progress
  | None => false
  end.

(** [{ ...progress, completed: c }]. *)
Definition with_completed (progress : ProgressRecord) (c : bool) : ProgressRecord :=
  {| problemId := problemId progress; completed := c; _id := _id progress |}.

(** The callback of the two [map] calls (Navbar.js lines 97-101 and
    123-127): a record of [P] gets the flag [c], another is kept. *)
Definition set_flag (P : string) (c : bool) (progress : ProgressRecord)
    : ProgressRecord :=
  if String.eqb (problemId progress) P then with_completed progress c else progress.

(** A record the backend persisted: its identifier lacks the prefix
    the revert looks for. *)
Definition persisted (progress : ProgressRecord) : Prop :=
  String.prefix "temp-" (_id progress) = false.

(** The temporary identifier [`temp-${problemId}-${Date.now()}`]. *)
Definition temp_id (problemId0 : string) (now : N) : string :=
  "temp-" ++ problemId0 ++ "-" ++ NilEmpty.string_of_uint (N.to_uint now).

(** The updater of the optimistic update (Navbar.js lines 92-111). *)
Definition optimisticUpdate (problemId0 : string) (newCompletedState : bool)
    (now : N) (prev : list ProgressRecord) : list ProgressRecord :=
  match List.find (fun p => String.eqb (problemId p) problemId0) prev with
  | Some existingProgress =>
      List.map (fun progress =>
                  if String.eqb (problemId progress) problemId0
                  then with_completed progress newCompletedState
                  else progress) prev
  | None =>
      let newProgress :=
        {| problemId := problemId0; completed := newCompletedState;
           _id := temp_id problemId0 now |} in
      prev ++ [newProgress]
  end.

(** The updater of the revert in the [catch] block (Navbar.js lines
    122-128). *)
Definition revertUpdate (problemId0 : string) (completed0 : bool)
    (prev : list ProgressRecord) : list ProgressRecord :=
  List.filter (fun progress => negb (String.prefix "temp-" (_id progress)))
    (List.map (fun progress =>
                 if String.eqb (problemId progress) problemId0
                 then with_completed progress completed0
                 else progress) prev).

(** [toggleProblemProgress(problemId, completed)] up to its [await]
    (Navbar.js lines 84-114): the identifier joins the in-flight set, the
    optimistic update is applied, and the request is issued. *)
Definition toggle_begin (st : State) (problemId0 : string) (completed0 : bool)
    (now : N) : State :=
  let newCompletedState := negb completed0 in
  {| topic := topic st;
     userProgress := optimisticUpdate problemId0 newCompletedState now (userProgress st);
     loading := loading st;
     updatingProblems := {[ problemId0 ]} ∪ updatingProblems st;
     dispatched := dispatched st |}.

(** [toggleProblemProgress] after its [await] (Navbar.js lines 116-136):
    on success the event is dispatched, on failure the [catch] block
    reverts; the [finally] block takes the identifier out of the
    in-flight set. *)
Definition toggle_settle (st : State) (problemId0 : string) (completed0 : bool)
    (response : Response unit) : State :=
  let st1 :=
    match response with
    | Fulfilled _ =>
        {| topic := topic st; userProgress := userProgress st;
           loading := loading st; updatingProblems := updatingProblems st;
           dispatched := dispatched st ++ ["progressUpdated"] |}
    | Rejected =>
        {| topic := topic st;
           userProgress := revertUpdate problemId0 completed0 (userProgress st);
           loading := loading st; updatingProblems := updatingProblems st;
           dispatched := dispatched st |}
    end in
  {| topic := topic st1; userProgress := userProgress st1;
     loading := loading st1;
     updatingProblems := updatingProblems st1 ∖ {[ problemId0 ]};
     dispatched := dispatched st1 |}.

(** A whole call of [toggleProblemProgress] with nothing interleaved at
    its [await].  Every exception is caught inside the function, so the
    promise it returns always resolves. *)
Definition toggleProblemProgress (st : State) (problemId0 : string)
    (completed0 : bool) (now : N) (response : Response unit) : Settled * State :=
  (Resolved_undefined,
   toggle_settle (toggle_begin st problemId0 completed0 now)
                 problemId0 completed0 response).

(** The checkbox rendered for a problem (Navbar.js lines 209-215). *)
Record Checkbox : Type := {
  key : string;
  checked : bool;
  disabled : bool
}.

Definition render_checkbox (st : State) (problem : Problem) : Checkbox :=
  let isCompleted := isProblemCompleted (userProgress st) (problem_id problem) in
  let isUpdating := bool_decide (problem_id problem ∈ updatingProblems st) in
  {| key := problem_id problem; checked := isCompleted; disabled := isUpdating |}.

(** A click on the checkbox of [problem]: the browser fires no change
    event on a disabled input; otherwise [onChange] starts the toggle
    with the flag the checkbox shows. *)
Definition click (st : State) (problem : Problem) (now : N) : State :=
  let box := render_checkbox st problem in
  if disabled box then st
  else toggle_begin st (key box) (checked box) now.

(** The figures of the progress bar (Navbar.js lines 163-167); [None]
    when [topic.problems] is missing (the render throws). *)
Record ProgressBar : Type := {
  completedProblems : nat;
  totalProblems : nat;
  percentage : JsNumber.Number
}.

Definition progressBar (t : Topic) (userProgress : list ProgressRecord)
    : option ProgressBar :=
  match problems t with
  | Some ps =>
      let completedProblems :=
        length (List.filter
                  (fun problem => isProblemCompleted userProgress (problem_id problem))
                  ps) in
      let totalProblems := length ps in
      Some {| completedProblems := completedProblems;
              totalProblems := totalProblems;
              percentage := JsNumber.percentageOf completedProblems totalProblems |}
  | None => None
  end.

(** What can happen to the mounted component: a click on a checkbox, or
    the settling of a request issued earlier for [problemId] with the
    flag [completed] its call captured. *)
Inductive Action : Type :=
| Click (problem : Problem) (now : N)
| Settle (problemId0 : string) (completed0 : bool) (response : Response unit).

Definition action_id (a : Action) : string :=
  match a with
  | Click problem _ => problem_id problem
  | Settle problemId0 _ _ => problemId0
  end.

Definition act (st : State) (a : Action) : State :=
  match a with
  | Click problem now => click st problem now
  | Settle problemId0 completed0 response =>
      toggle_settle st problemId0 completed0 response
  end.

Definition run (st : State) (actions : list Action) : State :=
  fold_left act actions st.

(** The mounted component together with the requests of
    [toggleProblemProgress] that have not settled yet, each with the
    arguments its call captured. *)
Record System : Type := {
  ui : State;
  requests : list (string * bool)
}.

(** One step of the page: a click on a checkbox that is not disabled
    starts a toggle and issues its request; a request settles. *)
Inductive step : System -> System -> Prop :=
| step_click (s : System) (problem : Problem) (now : N) :
    problem_id problem ∉ updatingProblems (ui s) ->
    step s {| ui := click (ui s) problem now;
              requests :=
                (problem_id problem,
                 isProblemCompleted (userProgress (ui s)) (problem_id problem))
                  :: requests s |}
| step_settle (s : System) (before after : list (string * bool))
    (problemId0 : string) (completed0 : bool) (response : Response unit) :
    requests s = (before ++ (problemId0, completed0) :: after)%list ->
    step s {| ui := toggle_settle (ui s) problemId0 completed0 response;
              requests := (before ++ after)%list |}.

(** The states of the page after its first load. *)
Inductive reachable : System -> Prop :=
| reachable_loaded (t : Topic) (progress : list ProgressRecord) :
    reachable {| ui := fetchData (Fulfilled t) (Fulfilled progress) initial;
                 requests := [] |}
| reachable_step (s s' : System) : reachable s -> step s s' -> reachable s'.

End TopicDetail.

(** ** Dashboard *)

Module Dashboard.

(** The statistics shown by the four cards; the field [stats_completed]
    is [completed] in the source. *)
Record Stats : Type := {
  total : JsNumber.Number;
  stats_completed : JsNumber.Number;
  remaining : JsNumber.Number;
  percentage : JsNumber.Number
}.

(** [{ ...problem, completed: ... }]; [problem_completed] is [completed]
    in the source. *)
Record ProblemWithProgress : Type := {
  problem : Problem;
  problem_completed : bool
}.

(** [{ ...topic, problems: ... }]. *)
Record TopicWithProgress : Type := {
  base : Topic;
  problems_with_progress : option (list ProblemWithProgress)
}.

Record State : Type := {
  topics : list TopicWithProgress;
  stats : Stats;
  loading : bool
}.

Definition zeroStats : Stats :=
  {| total := PrimFloat.zero; stats_completed := PrimFloat.zero;
     remaining := PrimFloat.zero; percentage := PrimFloat.zero |}.

(** The state at mount (Dashboard.js lines 6-13). *)
Definition initial : State :=
  {| topics := []; stats := zeroStats; loading := true |}.

(** The set [completedProblems] built by the [forEach] of lines 27-32. *)
Definition completedProblems (userProgress : list ProgressRecord) : gset string :=
  fold_left (fun (s : gset string) progress =>
               if completed progress then {[ problemId progress ]} ∪ s else s)
            userProgress ∅.

(** The flag line 39 gives a problem: [completedProblems.has(problem._id)]. *)
Definition completedFlag (userProgress : list ProgressRecord)
    (problemId0 : string) : bool :=
  bool_decide (problemId0 ∈ completedProblems userProgress).

(** One topic of [topicsWithProgress] (lines 35-41); [None] when
    [topic.problems] is missing, where [topic.problems.map] throws. *)
Definition withProgress (done : gset string) (t : Topic) : option TopicWithProgress :=
  match problems t with
  | Some ps =>
      Some {| base := t;
              problems_with_progress :=
                Some (List.map (fun p =>
                                  {| problem := p;
                                     problem_completed :=
                                       bool_decide (problem_id p ∈ done) |}) ps) |}
  | None => None
  end.

(** [topicsData.map(...)] of lines 35-41: the first missing [problems]
    field throws. *)
Fixpoint topicsWithProgress (done : gset string) (topicsData : list Topic)
    : option (list TopicWithProgress) :=
  match topicsData with
  | [] => Some []
  | t :: rest =>
      match withProgress done t with
      | Some t' =>
          match topicsWithProgress done rest with
          | Some rest' => Some (t' :: rest')
          | None => None
          end
      | None => None
      end
  end.

(** [totalProblems], the [reduce] of line 46. *)
Definition totalProblems (topicsData : list Topic) : nat :=
  fold_left (fun total0 t =>
               total0 + match problems t with
                        | Some ps => length ps
                        | None => 0
                        end)
            topicsData 0.

(** [completedCount], line 47. *)
Definition completedCount (userProgress : list ProgressRecord) : nat :=
  length (List.filter (fun p => completed p) userProgress).

(** The object of lines 52-57. *)
Definition localStats (totalProblems0 completedCount0 : nat) : Stats :=
  {| total := JsNumber.of_nat totalProblems0;
     stats_completed := JsNumber.of_nat completedCount0;
     remaining := PrimFloat.sub (JsNumber.of_nat totalProblems0)
                                (JsNumber.of_nat completedCount0);
     percentage := JsNumber.percentageOf completedCount0 totalProblems0 |}.

(** The choice of lines 49-58.  [statsData] is [statsResponse.data],
    [None] when it is falsy. *)
Definition chooseStats (statsData : option Stats)
    (totalProblems0 completedCount0 : nat) : Stats :=
  match statsData with
  | Some remote =>
      if JsNumber.gt (total remote) PrimFloat.zero then remote
      else localStats totalProblems0 completedCount0
  | None => localStats totalProblems0 completedCount0
  end.

(** [fetchData] (lines 15-66).  The [.catch] handlers of lines 19-20
    turn a rejected statistics or progress request into default data; a
    rejected topics request, or an exception in the [try] block, ends
    in the [catch] block of lines 59-62. *)
Definition fetchData (topicsResponse : Response (list Topic))
    (statsResponse : Response (option Stats))
    (progressResponse : Response (list ProgressRecord)) (st : State) : State :=
  let statsData :=
    match statsResponse with
    | Fulfilled d => d
    | Rejected => Some zeroStats
    end in
  let userProgress :=
    match progressResponse with
    | Fulfilled d => d
    | Rejected => []
    end in
  let failed := {| topics := topics st; stats := zeroStats; loading := false |} in
  match topicsResponse with
  | Fulfilled topicsData =>
      match topicsWithProgress (completedProblems userProgress) topicsData with
      | Some withP =>
          {| topics := withP;
             stats := chooseStats statsData (totalProblems topicsData)
                                  (completedCount userProgress);
             loading := false |}
      | None => failed
      end
  | Rejected => failed
  end.

(** The figures of a topic card (lines 197-199). *)
Record TopicCard : Type := {
  card_totalProblems : nat;
  card_completedProblems : nat;
  topicPercentage : JsNumber.Number
}.

Definition topicCard (t : TopicWithProgress) : TopicCard :=
  let totalProblems0 :=
    match problems_with_progress t with
    | Some ps => length ps
    | None => 0
    end in
  let completedProblems0 :=
    match problems_with_progress t with
    | Some ps => length (List.filter (fun p => problem_completed p) ps)
    | None => 0
    end in
  {| card_totalProblems := totalProblems0;
     card_completedProblems := completedProblems0;
     topicPercentage := JsNumber.percentageOf completedProblems0 totalProblems0 |}.

End Dashboard.

(** ** The specification's own formulations

    Definitions written from the words of the specification, to be
    compared with the definitions above, which follow the source. *)

Module Spec.

(** "isCompleted matches the last record's flag for each problem
    identifier (last-write-wins)"; false without a record. *)
Definition isCompleted_last_write_wins (records : list ProgressRecord)
    (problemId0 : string) : bool :=
  match List.find (fun p => String.eqb (problemId p) problemId0) (rev records) with
  | Some progress => completed progress
  | None => false
  end.

(** "true iff some record for P in the list has completed = true". *)
Definition some_record_completed (records : list ProgressRecord)
    (problemId0 : string) : Prop :=
  exists r, In r records /\ problemId r = problemId0 /\ completed r = true.

(** "round(completed / total * 100) using standard round-half-up, or 0
    when total is 0", on the exact ratio. *)
Definition percentage (completed total : nat) : Z :=
  if (total =? 0)%nat then 0%Z
  else ((200 * Z.of_nat completed + Z.of_nat total) / (2 * Z.of_nat total))%Z.

(** The exact value of [100 * completed / total] lies halfway between
    two integers. *)
Definition tie (completed total : nat) : bool :=
  ((200 * Z.of_nat completed) mod (2 * Z.of_nat total) =? Z.of_nat total)%Z.

(** The computed percentage of [completed] out of [total] is the
    integer [percentage] gives, or at a tie possibly the integer below. *)
Definition agrees (completed total : nat) : bool :=
  match JsNumber.to_Z (JsNumber.percentageOf completed total) with
  | Some z =>
      if tie completed total
      then (z =? percentage completed total)%Z
           || (z =? percentage completed total - 1)%Z
      else (z =? percentage completed total)%Z
  | None => false
  end.

(** [agrees] for every total from 1 to [bound] and every count up to
    the total. *)
Definition agrees_upto (bound : nat) : bool :=
  forallb (fun total => forallb (fun c => agrees c total) (seq 0 (S total)))
          (seq 1 bound).

(** "the count of that topic's problems P with store.isCompleted(P)
    true". *)
Definition topicCompleted (isCompleted : string -> bool) (t : Topic) : nat :=
  match problems t with
  | Some ps => length (List.filter (fun p => isCompleted (problem_id p)) ps)
  | None => 0
  end.

(** "the count of that topic's problems". *)
Definition topicTotal (t : Topic) : nat :=
  match problems t with
  | Some ps => length ps
  | None => 0
  end.

(** "sums totals and completed across all topics". *)
Definition globalTotal (topicsData : list Topic) : nat :=
  list_sum (List.map topicTotal topicsData).

Definition globalCompleted (isCompleted : string -> bool)
    (topicsData : list Topic) : nat :=
  list_sum (List.map (topicCompleted isCompleted) topicsData).

(** The problems of all the topics, in order. *)
Definition allProblems (topicsData : list Topic) : list Problem :=
  List.concat (List.map (fun t => match problems t with
                                  | Some ps => ps
                                  | None => []
                                  end) topicsData).

End Spec.

(** ** Sample data *)

Module Sample.

(** The problem numbered [i]. *)
Definition problem_n (i : nat) : Problem :=
  {| problem_id := "p" ++ NilEmpty.string_of_uint (Nat.to_uint i);
     title := "Problem" |}.

(** A persisted record of the problem numbered [i]. *)
Definition record_n (c : bool) (i : nat) : ProgressRecord :=
  {| problemId := problem_id (problem_n i); completed := c;
     _id := "65f0" ++ NilEmpty.string_of_uint (Nat.to_uint i) |}.

(** A topic holding the problems numbered [first .. first + n - 1]. *)
Definition topic_of (name : string) (first n : nat) : Topic :=
  {| topic_id := name; topic_title := name;
     problems := Some (List.map problem_n (seq first n)) |}.

Definition arrays : Topic := topic_of "arrays" 0 4.
Definition graphs : Topic := topic_of "graphs" 4 2.

(** Two of the four problems of [arrays] and both problems of [graphs]
    are completed. *)
Definition progress_4_of_6 : list ProgressRecord :=
  [record_n true 0; record_n false 1; record_n true 2;
   record_n true 4; record_n true 5].

(** A topic of forty problems, the first twenty-three completed. *)
Definition forty : Topic := topic_of "forty" 0 40.
Definition progress_23 : list ProgressRecord :=
  List.map (record_n true) (seq 0 23).

Definition two_sum : Problem := {| problem_id := "two-sum"; title := "Two Sum" |}.
Definition bfs : Problem := {| problem_id := "bfs"; title := "BFS" |}.

Definition sheet : Topic :=
  {| topic_id := "sheet"; topic_title := "Sheet"; problems := Some [two_sum; bfs] |}.

(** The component after its first load, with an empty progress list. *)
Definition loaded : TopicDetail.State :=
  TopicDetail.fetchData (Fulfilled sheet) (Fulfilled []) TopicDetail.initial.

End Sample.

(** ** What the two pages render and listen to *)

Module Page.

(** What rendering [TopicDetail] gives (Navbar.js lines 144-169): the
    spinner while loading; the "Topic not found" message without a
    topic; otherwise the page of the topic with the figures of its
    progress bar, unless [topic.problems] is missing, where
    [topic.problems.filter] of line 163 throws. *)
Inductive View : Type :=
| Spinner
| TopicNotFound
| TopicPage (t : Topic) (bar : TopicDetail.ProgressBar)
| RenderThrows.

Definition render (st : TopicDetail.State) : View :=
  if TopicDetail.loading st then Spinner
  else match TopicDetail.topic st with
       | None => TopicNotFound
       | Some t =>
           match TopicDetail.progressBar t (TopicDetail.userProgress st) with
           | Some bar => TopicPage t bar
           | None => RenderThrows
           end
       end.

(** The checkboxes of the problem list, [topic.problems.map(...)]
    (Navbar.js lines 197-215), in order. *)
Definition checkboxes (st : TopicDetail.State) (ps : list Problem)
    : list TopicDetail.Checkbox :=
  List.map (TopicDetail.render_checkbox st) ps.

(** The predicate of the [filter] of Navbar.js line 127. *)
Definition keptByRevert (progress : ProgressRecord) : bool :=
  negb (String.prefix "temp-" (_id progress)).

(** An action that is the settling of a request that succeeded. *)
Definition succeeded (a : TopicDetail.Action) : bool :=
  match a with
  | TopicDetail.Settle _ _ (Fulfilled _) => true
  | _ => false
  end.

(** An action that is the settling of a request that failed. *)
Definition failed (a : TopicDetail.Action) : bool :=
  match a with
  | TopicDetail.Settle _ _ Rejected => true
  | _ => false
  end.

(** The window events [Dashboard] registers a listener for
    (Dashboard.js lines 82-83); both listeners call [fetchData]. *)
Definition listens (eventName : string) : bool :=
  String.eqb eventName "focus" || String.eqb eventName "progressUpdated".

(** The element of [topicsWithProgress] for a topic (Dashboard.js lines
    35-41) whose [problems] are [ps]. *)
Definition shownTopic (done : gset string) (t : Topic) (ps : list Problem)
    : Dashboard.TopicWithProgress :=
  {| Dashboard.base := t;
     Dashboard.problems_with_progress :=
       Some (List.map (fun p =>
                         {| Dashboard.problem := p;
                            Dashboard.problem_completed :=
                              bool_decide (problem_id p ∈ done) |}) ps) |}.

(** The percentage the pages show for [c] of [total], as an integer. *)
Definition shownPercent (c total : nat) : option Z :=
  JsNumber.to_Z (JsNumber.percentageOf c total).

(** The percentages of a topic of [total] problems, for 0 to [total]
    completed problems. *)
Definition percent_row (total : nat) : list (option Z) :=
  List.map (fun c => shownPercent c total) (seq 0 (S total)).

(** The entry for [c] completed problems is an integer from 0 to 100,
    which is 100 only for [c = total] and 0 only for [c = 0]. *)
Definition entry_in_range (total c : nat) (entry : option Z) : bool :=
  match entry with
  | Some z =>
      (0 <=? z)%Z && (z <=? 100)%Z
      && Bool.eqb (z =? 100)%Z (c =? total)%nat
      && Bool.eqb (z =? 0)%Z (c =? 0)%nat
  | None => false
  end.

(** Every entry of a row that starts at [c] completed problems is in
    range, and none is below the one before it ([prev] for the first). *)
Fixpoint row_in_range (total c : nat) (prev : Z) (row : list (option Z)) : bool :=
  match row with
  | [] => true
  | entry :: rest =>
      entry_in_range total c entry
      && match entry with
         | Some z => (prev <=? z)%Z && row_in_range total (S c) z rest
         | None => false
         end
  end.

Definition percent_in_range_upto (bound : nat) : bool :=
  forallb (fun total => row_in_range total 0 0%Z (percent_row total)) (seq 1 bound).

End Page.

Import JsNumber.

(** * Properties *)

(** ** Reading the store *)

Section Lookup.

Import TopicDetail.

Lemma find_none_of_Forall (records : list ProgressRecord) (P : string) :
  Forall (fun q => problemId q <> P) records ->
  List.find (fun p => String.eqb (problemId p) P) records = None.
Proof.
  induction 1 as [|q rest Hq _ IH]; simpl; [reflexivity|].
  destruct (String.eqb_spec (problemId q) P); [contradiction | exact IH].
Qed.

Lemma find_first_match (before after : list ProgressRecord) (r : ProgressRecord)
    (P : string) :
  problemId r = P ->
  Forall (fun q => problemId q <> P) before ->
  List.find (fun p => String.eqb (problemId p) P) (before ++ r :: after) = Some r.
Proof.
  intros Hr Hbefore.
  induction Hbefore as [|q rest Hq _ IH]; simpl.
  - rewrite Hr, String.eqb_refl. reflexivity.
  - destruct (String.eqb_spec (problemId q) P); [contradiction | exact IH].
Qed.

Lemma find_some_matches (records : list ProgressRecord) (P : string)
    (r : ProgressRecord) :
  List.find (fun p => String.eqb (problemId p) P) records = Some r ->
  In r records /\ problemId r = P.
Proof.
  intros H. apply List.find_some in H. destruct H as [Hin Heq].
  split; [exact Hin | now apply String.eqb_eq].
Qed.

Lemma isProblemCompleted_no_record (records : list ProgressRecord) (P : string) :
  Forall (fun q => problemId q <> P) records ->
  isProblemCompleted records P = false.
Proof.
  intros H. unfold isProblemCompleted. now rewrite find_none_of_Forall.
Qed.

Lemma isProblemCompleted_true_In (records : list ProgressRecord) (P : string) :
  isProblemCompleted records P = true ->
  exists r, In r records /\ problemId r = P /\ completed r = true.
Proof.
  unfold isProblemCompleted.
  destruct (List.find _ records) as [r|] eqn:Hfind; [|discriminate].
  intros Hc. apply find_some_matches in Hfind. destruct Hfind as [Hin Hid].
  exists r. auto.
Qed.

End Lookup.

(** C1, as the claim states it, fails: with two records for one problem
    the store answers with the first record's flag, where last-write-wins
    gives the flag of the second. *)
Lemma isProblemCompleted_not_last_write_wins :
  let records :=
    [ {| problemId := "two-sum"; completed := true; _id := "65f001" |};
      {| problemId := "two-sum"; completed := false; _id := "65f002" |} ] in
  let st := TopicDetail.fetchData (Fulfilled Sample.sheet) (Fulfilled records)
                                  TopicDetail.initial in
  TopicDetail.isProblemCompleted (TopicDetail.userProgress st) "two-sum" = true /\
  Spec.isCompleted_last_write_wins records "two-sum" = false.
Proof. split; reflexivity. Qed.

(** C1 (amended): after a load of [records], [isProblemCompleted] returns
    the completed flag of the FIRST record of the sequence whose problem
    identifier matches, and [false] when no record has that identifier. *)
Theorem isProblemCompleted_first_record
    (t : Topic) (records : list ProgressRecord) (st : TopicDetail.State) (P : string) :
  let store := TopicDetail.userProgress
                 (TopicDetail.fetchData (Fulfilled t) (Fulfilled records) st) in
  (forall (before : list ProgressRecord) r after,
      records = (before ++ r :: after)%list ->
      problemId r = P ->
      Forall (fun q => problemId q <> P) before ->
      TopicDetail.isProblemCompleted store P = completed r) /\
  (Forall (fun q => problemId q <> P) records ->
   TopicDetail.isProblemCompleted store P = false).
Proof.
  simpl. split.
  - intros before r after -> Hr Hbefore.
    unfold TopicDetail.isProblemCompleted.
    now rewrite (find_first_match before after r P Hr Hbefore).
  - apply isProblemCompleted_no_record.
Qed.

Lemma isProblemCompleted_first_record_witness :
  TopicDetail.isProblemCompleted
    [Sample.record_n false 1; Sample.record_n true 2; Sample.record_n false 2] "p2"
  = true.
Proof.
  refine (proj1 (isProblemCompleted_first_record Sample.sheet
                   [Sample.record_n false 1; Sample.record_n true 2; Sample.record_n false 2]
                   TopicDetail.initial "p2")
                [Sample.record_n false 1] (Sample.record_n true 2)
                [Sample.record_n false 2] _ _ _).
  - reflexivity.
  - reflexivity.
  - constructor; [discriminate | constructor].
Defined.

(** ** The optimistic update and its revert *)

Section Updaters.

Import TopicDetail.

Lemma set_flag_problemId P c progress :
  problemId (set_flag P c progress) = problemId progress.
Proof. unfold set_flag. now destruct (String.eqb _ P). Qed.

Lemma set_flag_id P c progress : _id (set_flag P c progress) = _id progress.
Proof. unfold set_flag. now destruct (String.eqb _ P). Qed.

Lemma set_flag_other P c progress :
  problemId progress <> P -> set_flag P c progress = progress.
Proof.
  intros Hne. unfold set_flag.
  destruct (String.eqb_spec (problemId progress) P); [contradiction | reflexivity].
Qed.

Lemma set_flag_same P c progress :
  problemId progress = P -> completed (set_flag P c progress) = c.
Proof.
  intros He. unfold set_flag. rewrite He, String.eqb_refl. reflexivity.
Qed.

Lemma set_flag_twice P c c' progress :
  set_flag P c (set_flag P c' progress) = set_flag P c progress.
Proof.
  unfold set_flag.
  destruct (String.eqb (problemId progress) P) eqn:E; simpl; now rewrite E.
Qed.

Lemma find_map_set_flag P c Q (records : list ProgressRecord) :
  List.find (fun p => String.eqb (problemId p) Q) (List.map (set_flag P c) records)
  = option_map (set_flag P c)
      (List.find (fun p => String.eqb (problemId p) Q) records).
Proof.
  induction records as [|r rest IH]; simpl; [reflexivity|].
  rewrite set_flag_problemId.
  destruct (String.eqb (problemId r) Q); [reflexivity | exact IH].
Qed.

(** Other identifiers do not see the map. *)
Lemma isProblemCompleted_set_flag_other P c Q records :
  Q <> P ->
  isProblemCompleted (List.map (set_flag P c) records) Q
  = isProblemCompleted records Q.
Proof.
  intros Hne. unfold isProblemCompleted. rewrite find_map_set_flag.
  destruct (List.find _ records) as [r|] eqn:Hfind; simpl; [|reflexivity].
  apply find_some_matches in Hfind. destruct Hfind as [_ Hid].
  rewrite set_flag_other; [reflexivity | congruence].
Qed.

(** Writing back the flag the store already answers changes no answer. *)
Lemma isProblemCompleted_set_flag_restore P Q records :
  isProblemCompleted (List.map (set_flag P (isProblemCompleted records P)) records) Q
  = isProblemCompleted records Q.
Proof.
  destruct (String.eqb_spec Q P) as [->|Hne].
  - unfold isProblemCompleted at 1 3. rewrite find_map_set_flag.
    unfold isProblemCompleted.
    destruct (List.find _ records) as [r|] eqn:Hfind; simpl; [|reflexivity].
    apply find_some_matches in Hfind. destruct Hfind as [_ Hid].
    now apply set_flag_same.
  - now apply isProblemCompleted_set_flag_other.
Qed.

Lemma filter_persisted_id (records : list ProgressRecord) :
  Forall persisted records ->
  List.filter (fun progress => negb (String.prefix "temp-" (_id progress))) records
  = records.
Proof.
  induction 1 as [|r rest Hr _ IH]; simpl; [reflexivity|].
  unfold persisted in Hr. rewrite Hr. simpl. now rewrite IH.
Qed.

Lemma persisted_map_set_flag P c (records : list ProgressRecord) :
  Forall persisted records -> Forall persisted (List.map (set_flag P c) records).
Proof.
  induction 1 as [|r rest Hr _ IH]; simpl; constructor; [|exact IH].
  unfold persisted. now rewrite set_flag_id.
Qed.

Lemma temp_id_is_temporary P now : String.prefix "temp-" (temp_id P now) = true.
Proof.
  unfold temp_id. simpl.
  match goal with |- String.prefix _ ?rest = true => now destruct rest end.
Qed.

Lemma revertUpdate_unfold P c prev :
  revertUpdate P c prev
  = List.filter (fun progress => negb (String.prefix "temp-" (_id progress)))
      (List.map (set_flag P c) prev).
Proof. reflexivity. Qed.

Lemma optimisticUpdate_existing P b now prev e :
  List.find (fun p => String.eqb (problemId p) P) prev = Some e ->
  optimisticUpdate P b now prev = List.map (set_flag P b) prev.
Proof. intros H. unfold optimisticUpdate. now rewrite H. Qed.

Lemma optimisticUpdate_absent P b now prev :
  List.find (fun p => String.eqb (problemId p) P) prev = None ->
  optimisticUpdate P b now prev
  = (prev ++ [ {| problemId := P; completed := b; _id := temp_id P now |} ])%list.
Proof. intros H. unfold optimisticUpdate. now rewrite H. Qed.

(** On a store that holds persisted records only, the revert undoes the
    optimistic update: what is left is the store with the captured flag
    written back to the records of [P]. *)
Lemma revert_optimistic_persisted P c b now (prev : list ProgressRecord) :
  Forall persisted prev ->
  revertUpdate P c (optimisticUpdate P b now prev) = List.map (set_flag P c) prev.
Proof.
  intros Hp. rewrite revertUpdate_unfold.
  destruct (List.find (fun p => String.eqb (problemId p) P) prev) as [e|] eqn:Hfind.
  - rewrite (optimisticUpdate_existing _ _ _ _ _ Hfind), List.map_map.
    rewrite (List.map_ext _ (set_flag P c)) by (intros; apply set_flag_twice).
    apply filter_persisted_id. now apply persisted_map_set_flag.
  - rewrite (optimisticUpdate_absent _ _ _ _ Hfind), List.map_app, List.filter_app.
    rewrite filter_persisted_id by now apply persisted_map_set_flag.
    cbn [List.map List.filter]. rewrite set_flag_id. cbn [_id].
    rewrite temp_id_is_temporary. cbn [negb]. now rewrite List.app_nil_r.
Qed.

(** The round trip holds on a store of persisted records. *)
Lemma roundtrip_on_persisted_store P now Q (prev : list ProgressRecord) :
  Forall persisted prev ->
  let previousCompleted := isProblemCompleted prev P in
  isProblemCompleted
    (revertUpdate P previousCompleted
       (optimisticUpdate P (negb previousCompleted) now prev)) Q
  = isProblemCompleted prev Q.
Proof.
  intros Hp. simpl. rewrite revert_optimistic_persisted by exact Hp.
  apply isProblemCompleted_set_flag_restore.
Qed.

(** The revert keeps every persisted record of another identifier, and
    brings in none. *)
Lemma revertUpdate_frame_persisted P c (prev : list ProgressRecord) r :
  problemId r <> P -> persisted r ->
  (In r (revertUpdate P c prev) <-> In r prev).
Proof.
  intros Hne Hr. rewrite revertUpdate_unfold, List.filter_In, List.in_map_iff.
  split.
  - intros [[x [Hx Hin]] _].
    destruct (String.eqb_spec (problemId x) P) as [He|Hx'].
    + exfalso. apply Hne. rewrite <- Hx, set_flag_problemId. exact He.
    + rewrite set_flag_other in Hx by exact Hx'. now subst.
  - intros Hin. split.
    + exists r. split; [now apply set_flag_other | exact Hin].
    + unfold persisted in Hr. now rewrite Hr.
Qed.

(** After the revert the store answers for [P] with nothing but the
    captured flag. *)
Lemma isProblemCompleted_revert_true P c prev :
  isProblemCompleted (revertUpdate P c prev) P = true -> c = true.
Proof.
  intros H. apply isProblemCompleted_true_In in H.
  destruct H as [r [Hin [Hid Hc]]].
  rewrite revertUpdate_unfold, List.filter_In, List.in_map_iff in Hin.
  destruct Hin as [[x [Hx _]] _].
  destruct (String.eqb_spec (problemId x) P) as [He|Hx'].
  - rewrite <- Hc, <- Hx. symmetry. now apply set_flag_same.
  - exfalso. apply Hx'. rewrite <- Hid, <- Hx, set_flag_problemId. reflexivity.
Qed.

End Updaters.

(** ** The toggle *)

Section Toggle.

Import TopicDetail.

Lemma updatingProblems_toggle_begin st P c now :
  updatingProblems (toggle_begin st P c now) = {[ P ]} ∪ updatingProblems st.
Proof. reflexivity. Qed.

Lemma updatingProblems_toggle_settle st P c response :
  updatingProblems (toggle_settle st P c response) = updatingProblems st ∖ {[ P ]}.
Proof. now destruct response. Qed.

Lemma dispatched_toggle_settle st P c response :
  dispatched (toggle_settle st P c response)
  = (dispatched st ++ match response with
                      | Fulfilled _ => ["progressUpdated"]
                      | Rejected => []
                      end)%list.
Proof. destruct response; simpl; [reflexivity | now rewrite List.app_nil_r]. Qed.

Lemma userProgress_toggle_settle_rejected st P c :
  userProgress (toggle_settle st P c Rejected) = revertUpdate P c (userProgress st).
Proof. reflexivity. Qed.

Lemma click_pending st problem now :
  problem_id problem ∈ updatingProblems st -> click st problem now = st.
Proof.
  intros Hin. unfold click. cbn [render_checkbox disabled].
  now rewrite bool_decide_eq_true_2.
Qed.

Lemma click_idle st problem now :
  problem_id problem ∉ updatingProblems st ->
  click st problem now
  = toggle_begin st (problem_id problem)
      (isProblemCompleted (userProgress st) (problem_id problem)) now.
Proof.
  intros Hout. unfold click. cbn [render_checkbox disabled key checked].
  now rewrite bool_decide_eq_false_2.
Qed.

(** An action on another identifier keeps [P] in the in-flight set. *)
Lemma act_keeps_pending st a P :
  action_id a <> P -> P ∈ updatingProblems st -> P ∈ updatingProblems (act st a).
Proof.
  intros Hne Hin.
  destruct a as [problem now | Q c response]; cbn [act action_id] in *.
  - destruct (decide (problem_id problem ∈ updatingProblems st)) as [Hq|Hq].
    + now rewrite click_pending.
    + rewrite click_idle by exact Hq. rewrite updatingProblems_toggle_begin.
      set_solver.
  - rewrite updatingProblems_toggle_settle. set_solver.
Qed.

Lemma run_keeps_pending actions : forall st P,
  Forall (fun a => action_id a <> P) actions ->
  P ∈ updatingProblems st -> P ∈ updatingProblems (run st actions).
Proof.
  induction actions as [|a rest IH]; intros st P Hall Hin; simpl; [exact Hin|].
  inversion Hall as [|? ? Ha Hrest]; subst.
  apply IH; [exact Hrest | now apply act_keeps_pending].
Qed.

(** In every state the page reaches, the in-flight set holds exactly the
    identifiers of the requests that have not settled, each once. *)
Lemma in_flight_is_pending_requests (s : System) :
  reachable s ->
  List.NoDup (List.map fst (requests s)) /\
  (forall P, P ∈ updatingProblems (ui s) <-> In P (List.map fst (requests s))).
Proof.
  induction 1 as [t progress | s s' _ [Hnd Hset] Hstep].
  - split; [constructor|]. intros P. simpl. split; [|intros []].
    intros Hin. now apply not_elem_of_empty in Hin.
  - destruct Hstep as [s problem now Hidle | s before after Q c response Hreq];
      cbn [ui requests].
    + rewrite click_idle by exact Hidle. split.
      * simpl. constructor; [|exact Hnd]. now rewrite <- Hset.
      * intros P. rewrite updatingProblems_toggle_begin, elem_of_union,
          elem_of_singleton, Hset. simpl. split; intros [H|H]; auto.
    + rewrite Hreq, List.map_app in Hnd, Hset. simpl in Hnd, Hset.
      pose proof (List.NoDup_remove_1 _ _ _ Hnd) as Hnd'.
      pose proof (List.NoDup_remove_2 _ _ _ Hnd) as HQ.
      rewrite List.map_app. split; [exact Hnd'|].
      intros P. rewrite updatingProblems_toggle_settle, elem_of_difference,
        elem_of_singleton, Hset, !List.in_app_iff. simpl.
      rewrite List.in_app_iff in HQ. split.
      * intros [[H|[H|H]] Hne]; auto. now elim Hne.
      * intros H. split; [tauto|]. intros ->. tauto.
Qed.

End Toggle.

(** C2: the code breaks the round trip.  After a successful first toggle
    of "two-sum" its record still carries a temporary identifier; the
    optimistic update of "bfs" followed by the revert with the captured
    flag then loses the completion of "two-sum" (and a second toggle of
    "two-sum" itself, reverted, loses it as well). *)
Theorem revert_breaks_roundtrip_after_unconfirmed_record :
  let st := snd (TopicDetail.toggleProblemProgress Sample.loaded "two-sum" false
                   1700000000000 (Fulfilled tt)) in
  let store := TopicDetail.userProgress st in
  let roundtrip P :=
    let previousCompleted := TopicDetail.isProblemCompleted store P in
    TopicDetail.revertUpdate P previousCompleted
      (TopicDetail.optimisticUpdate P (negb previousCompleted) 1700000000001 store) in
  TopicDetail.isProblemCompleted store "two-sum" = true /\
  TopicDetail.isProblemCompleted (roundtrip "bfs") "two-sum" = false /\
  TopicDetail.isProblemCompleted (roundtrip "two-sum") "two-sum" = false.
Proof. repeat split; reflexivity. Qed.

(** C3: the code breaks the frame property.  The record a successful
    toggle of "two-sum" created is removed by the failed toggle of
    "bfs". *)
Theorem failed_toggle_removes_record_of_other_problem :
  let st := snd (TopicDetail.toggleProblemProgress Sample.loaded "two-sum" false
                   1700000000000 (Fulfilled tt)) in
  let st' := snd (TopicDetail.toggleProblemProgress st "bfs" false
                    1700000000001 Rejected) in
  TopicDetail.userProgress st
  = [ {| problemId := "two-sum"; completed := true;
         _id := "temp-two-sum-1700000000000" |} ] /\
  TopicDetail.userProgress st' = [].
Proof. split; reflexivity. Qed.

(** C4, as the claim states it, fails: a call of [toggleProblemProgress]
    for an identifier that is in the in-flight set resolves like any
    other, and applies the optimistic update a second time. *)
Lemma reentrant_toggle_resolves_and_mutates :
  let records := [ {| problemId := "two-sum"; completed := false; _id := "65f001" |} ] in
  let st0 := TopicDetail.fetchData (Fulfilled Sample.sheet) (Fulfilled records)
                                   TopicDetail.initial in
  let st := TopicDetail.toggle_begin st0 "two-sum" false 1700000000000 in
  "two-sum" ∈ TopicDetail.updatingProblems st /\
  fst (TopicDetail.toggleProblemProgress st "two-sum" true 1700000000001 (Fulfilled tt))
  = Resolved_undefined /\
  TopicDetail.userProgress (TopicDetail.toggle_begin st "two-sum" true 1700000000001)
  <> TopicDetail.userProgress st.
Proof.
  simpl. split; [set_solver|]. split; [reflexivity|]. discriminate.
Qed.

(** C4 (amended): while [P] is in the in-flight set its checkbox is
    rendered disabled, so a click on it starts no toggle and leaves the
    store, the in-flight set and the dispatched events as they are.
    [toggleProblemProgress] itself has no guard and no error result: its
    promise resolves whatever the state. *)
Theorem pending_checkbox_is_inert
    (st : TopicDetail.State) (problem : Problem) (now : N) :
  problem_id problem ∈ TopicDetail.updatingProblems st ->
  TopicDetail.disabled (TopicDetail.render_checkbox st problem) = true /\
  TopicDetail.click st problem now = st /\
  (forall c now' response,
      fst (TopicDetail.toggleProblemProgress st (problem_id problem) c now' response)
      = Resolved_undefined).
Proof.
  intros Hin. split; [|split].
  - simpl. now apply bool_decide_eq_true_2.
  - now apply click_pending.
  - reflexivity.
Qed.

Lemma pending_checkbox_is_inert_witness :
  let st := TopicDetail.click Sample.loaded Sample.two_sum 1700000000000 in
  TopicDetail.click st Sample.two_sum 1700000000001 = st.
Proof.
  refine (proj1 (proj2 (pending_checkbox_is_inert
                          (TopicDetail.click Sample.loaded Sample.two_sum 1700000000000)
                          Sample.two_sum 1700000000001 _))).
  vm_compute. set_solver.
Defined.

(** C5: a problem that is not completed is toggled and the request
    fails, whatever the component did while the request was pending.
    When the toggle has settled the problem is not completed again, and
    neither the first part of the toggle nor its settling dispatched an
    event; the event is dispatched exactly when the request succeeds. *)
Theorem failed_toggle_rolls_back_silently
    (st : TopicDetail.State) (P : string) (now : N)
    (meanwhile : list TopicDetail.Action) :
  TopicDetail.isProblemCompleted (TopicDetail.userProgress st) P = false ->
  let completed0 := TopicDetail.isProblemCompleted (TopicDetail.userProgress st) P in
  let pending := TopicDetail.toggle_begin st P completed0 now in
  let before := TopicDetail.run pending meanwhile in
  let failed := TopicDetail.toggle_settle before P completed0 Rejected in
  let succeeded := TopicDetail.toggle_settle before P completed0 (Fulfilled tt) in
  TopicDetail.isProblemCompleted (TopicDetail.userProgress failed) P = false /\
  TopicDetail.dispatched pending = TopicDetail.dispatched st /\
  TopicDetail.dispatched failed = TopicDetail.dispatched before /\
  TopicDetail.dispatched succeeded
  = (TopicDetail.dispatched before ++ ["progressUpdated"])%list.
Proof.
  intros Hfalse. cbv zeta. rewrite Hfalse. repeat split.
  destruct (TopicDetail.isProblemCompleted
              (TopicDetail.userProgress
                 (TopicDetail.toggle_settle _ P false Rejected)) P) eqn:E;
    [|reflexivity].
  rewrite userProgress_toggle_settle_rejected in E.
  now apply isProblemCompleted_revert_true in E.
Qed.

Lemma failed_toggle_rolls_back_silently_witness :
  let st := snd (TopicDetail.toggleProblemProgress Sample.loaded "bfs" false
                   1700000000000 Rejected) in
  TopicDetail.isProblemCompleted (TopicDetail.userProgress st) "bfs" = false /\
  TopicDetail.dispatched st = [].
Proof.
  pose proof (failed_toggle_rolls_back_silently Sample.loaded "bfs" 1700000000000 []
                eq_refl) as H.
  cbv zeta in H. destruct H as [H1 [_ [H3 _]]].
  split; [exact H1 | exact H3].
Defined.

(** C6: a toggle of [P] puts [P] into the in-flight set; [P] stays in it
    through every click and every settling that concerns another
    identifier; and the settling of the toggle, on success and on
    failure, takes [P] out of it. *)
Theorem in_flight_from_begin_to_settle
    (st : TopicDetail.State) (P : string) (completed0 : bool) (now : N)
    (meanwhile : list TopicDetail.Action) (response : Response unit) :
  Forall (fun a => TopicDetail.action_id a <> P) meanwhile ->
  let pending := TopicDetail.toggle_begin st P completed0 now in
  let before := TopicDetail.run pending meanwhile in
  let settled := TopicDetail.toggle_settle before P completed0 response in
  P ∈ TopicDetail.updatingProblems pending /\
  P ∈ TopicDetail.updatingProblems before /\
  P ∉ TopicDetail.updatingProblems settled.
Proof.
  intros Hothers. cbv zeta.
  assert (P ∈ TopicDetail.updatingProblems (TopicDetail.toggle_begin st P completed0 now))
    as Hin by (rewrite updatingProblems_toggle_begin; set_solver).
  split; [exact Hin|]. split.
  - now apply run_keeps_pending.
  - rewrite updatingProblems_toggle_settle.
    intros [_ Hout]%elem_of_difference. apply Hout. now apply elem_of_singleton.
Qed.

Lemma in_flight_from_begin_to_settle_witness :
  let pending := TopicDetail.toggle_begin Sample.loaded "bfs" false 1700000000000 in
  let before :=
    TopicDetail.run pending
      [TopicDetail.Click Sample.two_sum 1700000000001;
       TopicDetail.Settle "two-sum" false Rejected] in
  "bfs" ∈ TopicDetail.updatingProblems before /\
  "bfs" ∉ TopicDetail.updatingProblems
            (TopicDetail.toggle_settle before "bfs" false (Fulfilled tt)).
Proof.
  refine (proj2 (in_flight_from_begin_to_settle Sample.loaded "bfs" false 1700000000000
                   [TopicDetail.Click Sample.two_sum 1700000000001;
                    TopicDetail.Settle "two-sum" false Rejected]
                   (Fulfilled tt) _)).
  repeat constructor; discriminate.
Defined.

(** ** The completion flags of the dashboard *)

Section Flags.

Lemma elem_of_fold_completed (records : list ProgressRecord) :
  forall (acc : gset string) (P : string),
    P ∈ fold_left (fun (s : gset string) progress =>
                     if completed progress then {[ problemId progress ]} ∪ s else s)
                  records acc
    <-> P ∈ acc \/ Spec.some_record_completed records P.
Proof.
  unfold Spec.some_record_completed.
  induction records as [|r rest IH]; intros acc P; simpl.
  - split; [auto | intros [H | [r [[] _]]]; exact H].
  - rewrite IH. destruct (completed r) eqn:Hc.
    + rewrite elem_of_union, elem_of_singleton. split.
      * intros [[-> | H] | [x [Hin Hx]]]; eauto 7.
      * intros [H | [x [[<- | Hin] [Hid Hx]]]]; eauto 7.
    + split.
      * intros [H | [x [Hin Hx]]]; eauto 7.
      * intros [H | [x [[<- | Hin] [Hid Hx]]]]; eauto 7. congruence.
Qed.

(** The dashboard flags a problem exactly when some record of it is
    completed. *)
Lemma completedFlag_spec (records : list ProgressRecord) (P : string) :
  Dashboard.completedFlag records P = true <-> Spec.some_record_completed records P.
Proof.
  unfold Dashboard.completedFlag, Dashboard.completedProblems.
  rewrite bool_decide_eq_true, elem_of_fold_completed. split; [|auto].
  intros [H | H]; [|exact H]. now apply not_elem_of_empty in H.
Qed.

Lemma same_problem_same_record (records : list ProgressRecord) :
  List.NoDup (List.map problemId records) ->
  forall a b, In a records -> In b records -> problemId a = problemId b -> a = b.
Proof.
  induction records as [|r rest IH]; intros Hnd a b Ha Hb Hid; [destruct Ha|].
  simpl in Hnd. apply List.NoDup_cons_iff in Hnd. destruct Hnd as [Hr Hrest].
  destruct Ha as [<-|Ha], Hb as [<-|Hb]; auto.
  - exfalso. apply Hr. rewrite Hid. now apply List.in_map.
  - exfalso. apply Hr. rewrite <- Hid. now apply List.in_map.
Qed.

(** Whatever the list, a problem TopicDetail shows completed is flagged
    by the dashboard. *)
Lemma isProblemCompleted_completedFlag (records : list ProgressRecord) (P : string) :
  TopicDetail.isProblemCompleted records P = true ->
  Dashboard.completedFlag records P = true.
Proof.
  intros H. apply completedFlag_spec. now apply isProblemCompleted_true_In.
Qed.

End Flags.

(** C10, as the claim states it, fails: of two records for one problem,
    the first not completed and the second completed, the dashboard
    takes the problem for completed and TopicDetail does not. *)
Lemma completion_flags_differ_on_duplicates :
  let records :=
    [ {| problemId := "two-sum"; completed := false; _id := "65f001" |};
      {| problemId := "two-sum"; completed := true; _id := "65f002" |} ] in
  Dashboard.completedFlag records "two-sum" = true /\
  TopicDetail.isProblemCompleted records "two-sum" = false.
Proof. split; vm_compute; reflexivity. Qed.

(** C10 (amended): on a list with at most one record per problem
    identifier, the dashboard's flag for [P] (some record of [P] is
    completed) equals TopicDetail's [isProblemCompleted P]. *)
Theorem completion_flags_agree_without_duplicates
    (records : list ProgressRecord) (P : string) :
  List.NoDup (List.map problemId records) ->
  (Dashboard.completedFlag records P = true <-> Spec.some_record_completed records P) /\
  Dashboard.completedFlag records P = TopicDetail.isProblemCompleted records P.
Proof.
  intros Hnd. split; [apply completedFlag_spec|].
  destruct (TopicDetail.isProblemCompleted records P) eqn:Htd.
  - now apply isProblemCompleted_completedFlag.
  - destruct (Dashboard.completedFlag records P) eqn:Hd; [|reflexivity].
    apply completedFlag_spec in Hd. destruct Hd as [r [Hin [Hid Hc]]].
    unfold TopicDetail.isProblemCompleted in Htd.
    destruct (List.find _ records) as [r'|] eqn:Hfind.
    + apply find_some_matches in Hfind. destruct Hfind as [Hin' Hid'].
      assert (r' = r) as -> by (apply (same_problem_same_record records Hnd); congruence).
      congruence.
    + exfalso. apply (List.find_none _ _ Hfind) in Hin.
      rewrite Hid, String.eqb_refl in Hin. discriminate.
Qed.

Lemma completion_flags_agree_without_duplicates_witness :
  Dashboard.completedFlag Sample.progress_4_of_6 "p2"
  = TopicDetail.isProblemCompleted Sample.progress_4_of_6 "p2".
Proof.
  refine (proj2 (completion_flags_agree_without_duplicates
                   Sample.progress_4_of_6 "p2" _)).
  vm_compute. repeat constructor; simpl; intuition discriminate.
Defined.

(** ** Statistics *)

Section Statistics.

Lemma topicsWithProgress_defined (done : gset string) (topicsData : list Topic) :
  Forall (fun t => problems t <> None) topicsData ->
  exists shown, Dashboard.topicsWithProgress done topicsData = Some shown.
Proof.
  induction 1 as [|t rest Ht _ [shown IH]]; simpl; [eauto|].
  unfold Dashboard.withProgress.
  destruct (problems t) as [ps|]; [|contradiction].
  rewrite IH. eauto.
Qed.

Lemma fold_total_from (topicsData : list Topic) : forall acc,
  fold_left (fun total0 t =>
               total0 + match problems t with
                        | Some ps => length ps
                        | None => 0
                        end) topicsData acc
  = acc + Spec.globalTotal topicsData.
Proof.
  unfold Spec.globalTotal.
  induction topicsData as [|t rest IH]; intros acc; simpl; [lia|].
  rewrite IH. unfold Spec.topicTotal. lia.
Qed.

(** The [reduce] of line 46 sums the numbers of problems of the topics. *)
Lemma totalProblems_sum (topicsData : list Topic) :
  Dashboard.totalProblems topicsData = Spec.globalTotal topicsData.
Proof. unfold Dashboard.totalProblems. now rewrite fold_total_from. Qed.

Lemma fetchData_stats (topicsData : list Topic)
    (statsResponse : Response (option Dashboard.Stats))
    (progressResponse : Response (list ProgressRecord)) (st : Dashboard.State) :
  Forall (fun t => problems t <> None) topicsData ->
  Dashboard.stats
    (Dashboard.fetchData (Fulfilled topicsData) statsResponse progressResponse st)
  = Dashboard.chooseStats
      (match statsResponse with Fulfilled d => d | Rejected => Some Dashboard.zeroStats end)
      (Spec.globalTotal topicsData)
      (Dashboard.completedCount
         (match progressResponse with Fulfilled d => d | Rejected => [] end)).
Proof.
  intros Hall. unfold Dashboard.fetchData.
  destruct (topicsWithProgress_defined
              (Dashboard.completedProblems
                 (match progressResponse with Fulfilled d => d | Rejected => [] end))
              topicsData Hall) as [shown ->].
  simpl. now rewrite totalProblems_sum.
Qed.

(** X15: when the topics request fails, or a topic lacks its [problems],
    the [catch] block shows the zero statistics, keeps the topics shown
    before and ends the loading state, whatever the statistics and
    progress requests returned. *)
Lemma fetchData_failed (topicsResponse : Response (list Topic))
    (statsResponse : Response (option Dashboard.Stats))
    (progressResponse : Response (list ProgressRecord)) (st : Dashboard.State) :
  match topicsResponse with
  | Fulfilled topicsData => Exists (fun t => problems t = None) topicsData
  | Rejected => True
  end ->
  Dashboard.fetchData topicsResponse statsResponse progressResponse st
  = {| Dashboard.topics := Dashboard.topics st;
       Dashboard.stats := Dashboard.zeroStats;
       Dashboard.loading := false |}.
Proof.
  destruct topicsResponse as [topicsData|]; [|reflexivity].
  intros Hmissing. unfold Dashboard.fetchData.
  set (done := Dashboard.completedProblems _).
  assert (Dashboard.topicsWithProgress done topicsData = None) as ->; [|reflexivity].
  induction Hmissing as [t rest Ht | t rest _ IH]; simpl.
  - unfold Dashboard.withProgress. now rewrite Ht.
  - rewrite IH. now destruct (Dashboard.withProgress done t).
Qed.

Lemma percentageOf_no_problems (c : nat) : percentageOf c 0 = PrimFloat.zero.
Proof. reflexivity. Qed.

Lemma agrees_upto_200 : Spec.agrees_upto 200 = true.
Proof. vm_cast_no_check (eq_refl true). Qed.

Lemma agrees_upto_sound (bound : nat) :
  Spec.agrees_upto bound = true ->
  forall c total, c <= total -> 0 < total <= bound -> Spec.agrees c total = true.
Proof.
  unfold Spec.agrees_upto. intros H c total Hc Ht.
  rewrite forallb_forall in H. specialize (H total).
  rewrite forallb_forall in H. apply H; apply in_seq; lia.
Qed.

(** For totals up to 200 the computed percentage is the round-half-up
    of the exact ratio, or, at a tie, possibly the integer below. *)
Lemma percentageOf_bounded (c total : nat) :
  c <= total -> 0 < total <= 200 ->
  exists z, to_Z (percentageOf c total) = Some z /\
            (z = Spec.percentage c total \/
             (Spec.tie c total = true /\ z = (Spec.percentage c total - 1)%Z)).
Proof.
  intros Hc Ht.
  assert (Spec.agrees c total = true) as Hag
    by (apply (agrees_upto_sound 200 agrees_upto_200); lia).
  unfold Spec.agrees in Hag.
  destruct (to_Z (percentageOf c total)) as [z|]; [|discriminate].
  exists z. split; [reflexivity|].
  destruct (Spec.tie c total).
  - apply orb_true_iff in Hag. destruct Hag as [Hag|Hag];
      apply Z.eqb_eq in Hag; auto.
  - apply Z.eqb_eq in Hag. auto.
Qed.

Lemma length_filter_map_flag (done : gset string) (ps : list Problem) :
  length (List.filter (fun p => Dashboard.problem_completed p)
            (List.map (fun p => {| Dashboard.problem := p;
                                   Dashboard.problem_completed :=
                                     bool_decide (problem_id p ∈ done) |}) ps))
  = length (List.filter (fun p => bool_decide (problem_id p ∈ done)) ps).
Proof.
  induction ps as [|p rest IH]; simpl; [reflexivity|].
  destruct (bool_decide (problem_id p ∈ done)); simpl; now rewrite IH.
Qed.

Lemma globalCompleted_allProblems (isCompleted : string -> bool)
    (topicsData : list Topic) :
  Spec.globalCompleted isCompleted topicsData
  = length (List.filter (fun p => isCompleted (problem_id p))
                        (Spec.allProblems topicsData)).
Proof.
  unfold Spec.globalCompleted, Spec.allProblems.
  induction topicsData as [|t rest IH]; simpl; [reflexivity|].
  rewrite List.filter_app, List.length_app, IH. unfold Spec.topicCompleted.
  now destruct (problems t).
Qed.

Lemma NoDup_map_filter {A B : Type} (f : A -> B) (keep : A -> bool) (l : list A) :
  List.NoDup (List.map f l) -> List.NoDup (List.map f (List.filter keep l)).
Proof.
  induction l as [|a rest IH]; simpl; intros Hnd; [constructor|].
  apply List.NoDup_cons_iff in Hnd. destruct Hnd as [Ha Hrest].
  destruct (keep a); simpl; [|now apply IH].
  constructor; [|now apply IH].
  intros Hin. apply Ha. apply List.in_map_iff in Hin.
  destruct Hin as [x [Hx Hin]]. apply List.filter_In in Hin.
  apply List.in_map_iff. exists x. tauto.
Qed.

(** Where the claim about the local [completed] figure does hold: when no
    two records share a problem, no two listed problems share an
    identifier, and every completed record belongs to a listed problem,
    the count of completed records is the sum over the topics of their
    completed problems. *)
Lemma completedCount_sum_over_topics (topicsData : list Topic)
    (userProgress : list ProgressRecord) :
  List.NoDup (List.map problemId userProgress) ->
  List.NoDup (List.map problem_id (Spec.allProblems topicsData)) ->
  (forall r, In r userProgress -> completed r = true ->
             In (problemId r) (List.map problem_id (Spec.allProblems topicsData))) ->
  Dashboard.completedCount userProgress
  = Spec.globalCompleted (Dashboard.completedFlag userProgress) topicsData.
Proof.
  intros Hrecords Hproblems Hlisted.
  rewrite globalCompleted_allProblems. unfold Dashboard.completedCount.
  rewrite <- (List.length_map problemId (List.filter _ userProgress)).
  rewrite <- (List.length_map problem_id (List.filter _ (Spec.allProblems topicsData))).
  apply Permutation.Permutation_length, Permutation.NoDup_Permutation.
  - now apply NoDup_map_filter.
  - now apply NoDup_map_filter.
  - intros x. rewrite !List.in_map_iff. split.
    + intros [r [<- Hr]]. apply List.filter_In in Hr. destruct Hr as [Hin Hc].
      pose proof (Hlisted r Hin Hc) as Hp. apply List.in_map_iff in Hp.
      destruct Hp as [p [Hid Hp]]. exists p. split; [exact Hid|].
      apply List.filter_In. split; [exact Hp|].
      apply completedFlag_spec. exists r. auto.
    + intros [p [<- Hp]]. apply List.filter_In in Hp. destruct Hp as [_ Hflag].
      apply completedFlag_spec in Hflag. destruct Hflag as [r [Hin [Hid Hc]]].
      exists r. split; [exact Hid|]. apply List.filter_In. auto.
Qed.

End Statistics.

(** The choice of lines 49-58, reached when the topics were fetched and
    every topic has its [problems]: the remote statistics if the
    statistics response carries data whose [total] is greater than zero,
    the locally computed figures in every other case. *)
Lemma stats_choice_when_topics_fetched
    (topicsData : list Topic) (statsResponse : Response (option Dashboard.Stats))
    (progressResponse : Response (list ProgressRecord)) (st : Dashboard.State) :
  Forall (fun t => problems t <> None) topicsData ->
  let userProgress := match progressResponse with Fulfilled d => d | Rejected => [] end in
  let shown :=
    Dashboard.stats
      (Dashboard.fetchData (Fulfilled topicsData) statsResponse progressResponse st) in
  let totalProblems := Dashboard.totalProblems topicsData in
  let completedCount := Dashboard.completedCount userProgress in
  let locally :=
    {| Dashboard.total := of_nat totalProblems;
       Dashboard.stats_completed := of_nat completedCount;
       Dashboard.remaining := PrimFloat.sub (of_nat totalProblems) (of_nat completedCount);
       Dashboard.percentage := percentageOf completedCount totalProblems |} in
  (forall remote, statsResponse = Fulfilled (Some remote) ->
                  gt (Dashboard.total remote) PrimFloat.zero = true -> shown = remote) /\
  (forall remote, statsResponse = Fulfilled (Some remote) ->
                  gt (Dashboard.total remote) PrimFloat.zero = false -> shown = locally) /\
  (statsResponse = Fulfilled None -> shown = locally) /\
  (statsResponse = Rejected -> shown = locally) /\
  (shown <> locally ->
   statsResponse = Fulfilled (Some shown) /\
   gt (Dashboard.total shown) PrimFloat.zero = true).
Proof.
  intros Hall. cbv zeta. rewrite (fetchData_stats _ _ _ _ Hall), totalProblems_sum.
  unfold Dashboard.chooseStats, Dashboard.localStats.
  split; [|split; [|split; [|split]]].
  - intros remote -> Hgt. now rewrite Hgt.
  - intros remote -> Hgt. now rewrite Hgt.
  - now intros ->.
  - now intros ->.
  - destruct statsResponse as [[remote|]|]; try (intros Hne; now elim Hne).
    destruct (gt (Dashboard.total remote) PrimFloat.zero) eqn:Hgt;
      [now rewrite Hgt | intros Hne; now elim Hne].
Qed.

(** C8, as the claim states it, fails: the local [completed] figure
    counts the completed progress records, also one whose problem is in
    none of the fetched topics, where the sum over the topics does not
    count it. *)
Lemma local_completed_counts_records_not_problems :
  let topicsData := [Sample.arrays; Sample.graphs] in
  let userProgress := (Sample.progress_4_of_6 ++ [Sample.record_n true 9])%list in
  let shown :=
    Dashboard.stats
      (Dashboard.fetchData (Fulfilled topicsData) Rejected (Fulfilled userProgress)
                           Dashboard.initial) in
  to_Z (Dashboard.stats_completed shown) = Some 5%Z /\
  Spec.globalCompleted (Dashboard.completedFlag userProgress) topicsData = 4 /\
  Spec.globalCompleted (TopicDetail.isProblemCompleted userProgress) topicsData = 4.
Proof. repeat split; vm_compute; reflexivity. Qed.

(** C8 (amended): in the locally computed global statistics, [total] is
    the sum over the fetched topics of their numbers of problems,
    [completed] is the number of fetched progress records whose flag is
    set, [remaining] is their difference, and [percentage] follows the
    rule of the per-topic figures; two topics of 4 and 2 problems with 4
    completed records give total 6, completed 4, remaining 2,
    percentage 67. *)
Theorem local_global_stats
    (topicsData : list Topic) (progressResponse : Response (list ProgressRecord))
    (st : Dashboard.State) :
  Forall (fun t => problems t <> None) topicsData ->
  let userProgress := match progressResponse with Fulfilled d => d | Rejected => [] end in
  let shown :=
    Dashboard.stats
      (Dashboard.fetchData (Fulfilled topicsData) Rejected progressResponse st) in
  let totalProblems := list_sum (List.map Spec.topicTotal topicsData) in
  let completedCount := length (List.filter completed userProgress) in
  (Dashboard.total shown = of_nat totalProblems /\
   Dashboard.stats_completed shown = of_nat completedCount /\
   Dashboard.remaining shown
   = PrimFloat.sub (of_nat totalProblems) (of_nat completedCount) /\
   Dashboard.percentage shown = percentageOf completedCount totalProblems) /\
  Dashboard.stats
    (Dashboard.fetchData (Fulfilled [Sample.arrays; Sample.graphs]) Rejected
       (Fulfilled Sample.progress_4_of_6) st)
  = {| Dashboard.total := 6%float; Dashboard.stats_completed := 4%float;
       Dashboard.remaining := 2%float; Dashboard.percentage := 67%float |}.
Proof.
  intros Hall. cbv zeta. rewrite (fetchData_stats _ _ _ _ Hall).
  split; [repeat split|].
  vm_compute. reflexivity.
Qed.

Lemma local_global_stats_witness :
  Dashboard.stats_completed
    (Dashboard.stats
       (Dashboard.fetchData (Fulfilled [Sample.graphs]) Rejected
          (Fulfilled Sample.progress_4_of_6) Dashboard.initial))
  = of_nat (length (List.filter completed Sample.progress_4_of_6)).
Proof.
  refine (proj1 (proj2 (proj1 (local_global_stats [Sample.graphs]
                                 (Fulfilled Sample.progress_4_of_6)
                                 Dashboard.initial _)))).
  repeat constructor; discriminate.
Defined.

(** C9, as the claim states it, fails: for a topic of 40 problems with
    23 completed both components compute 57, the floating-point product
    (23 / 40) * 100 being 57.49999999999999, where the round-half-up of
    the exact ratio 57.5 is 58. *)
Lemma percentage_23_of_40 :
  option_map (fun bar => (TopicDetail.completedProblems bar,
                          TopicDetail.totalProblems bar,
                          to_Z (TopicDetail.percentage bar)))
             (TopicDetail.progressBar Sample.forty Sample.progress_23)
  = Some (23, 40, Some 57%Z) /\
  option_map (fun shown => (Dashboard.card_completedProblems (Dashboard.topicCard shown),
                            Dashboard.card_totalProblems (Dashboard.topicCard shown),
                            to_Z (Dashboard.topicPercentage (Dashboard.topicCard shown))))
             (Dashboard.withProgress (Dashboard.completedProblems Sample.progress_23)
                                     Sample.forty)
  = Some (23, 40, Some 57%Z) /\
  Spec.percentage 23 40 = 58%Z.
Proof. repeat split; vm_compute; reflexivity. Qed.

(** C9 (amended): for a topic with problems [ps], both components
    compute total = the number of problems and completed = the number of
    problems the component takes for completed; the percentage is 0 (the
    Number zero, not NaN) when there is no problem, and otherwise
    [Math.round] of the floating-point value of (completed / total) * 100.
    For totals up to 200 that is the round-half-up of the exact ratio,
    except that where 100 * completed / total lies exactly halfway
    between two integers it may be the integer below. *)
Theorem topic_statistics
    (t : Topic) (ps : list Problem) (userProgress : list ProgressRecord) :
  problems t = Some ps ->
  let total := length ps in
  let completed_detail :=
    length (List.filter
              (fun p => TopicDetail.isProblemCompleted userProgress (problem_id p)) ps) in
  let completed_card :=
    length (List.filter
              (fun p => Dashboard.completedFlag userProgress (problem_id p)) ps) in
  TopicDetail.progressBar t userProgress
  = Some {| TopicDetail.completedProblems := completed_detail;
            TopicDetail.totalProblems := total;
            TopicDetail.percentage := percentageOf completed_detail total |} /\
  (exists shown,
      Dashboard.withProgress (Dashboard.completedProblems userProgress) t = Some shown /\
      Dashboard.topicCard shown
      = {| Dashboard.card_totalProblems := total;
           Dashboard.card_completedProblems := completed_card;
           Dashboard.topicPercentage := percentageOf completed_card total |}) /\
  (forall c, total = 0 ->
             percentageOf c total = PrimFloat.zero /\
             PrimFloat.is_nan (percentageOf c total) = false) /\
  (forall c, 0 < total ->
             percentageOf c total
             = Math_round (PrimFloat.mul (PrimFloat.div (of_nat c) (of_nat total))
                                         (of_nat 100))) /\
  (forall c, c <= total -> 0 < total <= 200 ->
             exists z, to_Z (percentageOf c total) = Some z /\
                       (z = Spec.percentage c total \/
                        (Spec.tie c total = true /\
                         z = (Spec.percentage c total - 1)%Z))).
Proof.
  intros Hps. cbv zeta. split; [|split; [|split; [|split]]].
  - unfold TopicDetail.progressBar. now rewrite Hps.
  - unfold Dashboard.withProgress. rewrite Hps. eexists. split; [reflexivity|].
    unfold Dashboard.topicCard. cbn [Dashboard.problems_with_progress].
    rewrite length_filter_map_flag, List.length_map. reflexivity.
  - intros c ->. split; reflexivity.
  - intros c Hpos. unfold percentageOf.
    destruct (length ps) as [|n]; [lia | reflexivity].
  - intros c Hc Hb. now apply percentageOf_bounded.
Qed.

Lemma topic_statistics_witness :
  exists z, to_Z (percentageOf 2 (length (List.map Sample.problem_n (seq 0 4)))) = Some z /\
            (z = 50%Z \/ (Spec.tie 2 4 = true /\ z = 49%Z)).
Proof.
  refine (proj2 (proj2 (proj2 (proj2 (topic_statistics Sample.arrays
                   (List.map Sample.problem_n (seq 0 4)) Sample.progress_4_of_6
                   eq_refl)))) 2 _ _).
  - simpl. lia.
  - simpl. lia.
Defined.

(** ** Further properties of the toggle *)

Section Store.

Import TopicDetail.

Lemma find_app_first (keep : ProgressRecord -> bool) (l1 l2 : list ProgressRecord) :
  List.find keep (l1 ++ l2)%list
  = match List.find keep l1 with
    | Some x => Some x
    | None => List.find keep l2
    end.
Proof.
  induction l1 as [|x rest IH]; simpl; [reflexivity|].
  now destruct (keep x).
Qed.

(** What the store answers after the optimistic update. *)
Lemma optimisticUpdate_answer (prev : list ProgressRecord) (P Q : string)
    (b : bool) (now : N) :
  isProblemCompleted (optimisticUpdate P b now prev) Q
  = if String.eqb Q P then b else isProblemCompleted prev Q.
Proof.
  destruct (List.find (fun p => String.eqb (problemId p) P) prev) as [e|] eqn:Hfind.
  - rewrite (optimisticUpdate_existing _ _ _ _ _ Hfind).
    destruct (String.eqb_spec Q P) as [->|Hne].
    + unfold isProblemCompleted. rewrite find_map_set_flag, Hfind. simpl.
      apply find_some_matches in Hfind. now apply set_flag_same.
    + now apply isProblemCompleted_set_flag_other.
  - rewrite (optimisticUpdate_absent _ _ _ _ Hfind).
    unfold isProblemCompleted. rewrite find_app_first. simpl.
    destruct (String.eqb_spec Q P) as [->|Hne].
    + rewrite Hfind, String.eqb_refl. reflexivity.
    + destruct (List.find (fun p => String.eqb (problemId p) Q) prev);
        [reflexivity|].
      destruct (String.eqb_spec P Q); [congruence | reflexivity].
Qed.

Lemma map_set_flag_absent (P : string) (c : bool) (l : list ProgressRecord) :
  Forall (fun q => problemId q <> P) l -> List.map (set_flag P c) l = l.
Proof.
  induction 1 as [|r rest Hr _ IH]; simpl; [reflexivity|].
  now rewrite set_flag_other, IH.
Qed.

Lemma with_completed_same (r : ProgressRecord) : with_completed r (completed r) = r.
Proof. now destruct r. Qed.

(** On a store without duplicates, writing back the flag the store
    answers changes no record. *)
Lemma map_set_flag_answer (P : string) (l : list ProgressRecord) :
  List.NoDup (List.map problemId l) ->
  List.map (set_flag P (isProblemCompleted l P)) l = l.
Proof.
  induction l as [|r rest IH]; simpl; intros Hnd; [reflexivity|].
  apply List.NoDup_cons_iff in Hnd. destruct Hnd as [Hr Hrest].
  unfold isProblemCompleted. simpl.
  destruct (String.eqb_spec (problemId r) P) as [He|Hne].
  - unfold set_flag at 1. rewrite He, String.eqb_refl, with_completed_same.
    f_equal. apply map_set_flag_absent. apply List.Forall_forall.
    intros q Hq Hid. apply Hr. rewrite He, <- Hid. now apply List.in_map.
  - rewrite set_flag_other by exact Hne. f_equal. now apply IH.
Qed.

Lemma problemId_map_set_flag (P : string) (c : bool) (l : list ProgressRecord) :
  List.map problemId (List.map (set_flag P c) l) = List.map problemId l.
Proof.
  rewrite List.map_map. apply List.map_ext. intros r. apply set_flag_problemId.
Qed.

Lemma optimisticUpdate_NoDup (P : string) (b : bool) (now : N)
    (prev : list ProgressRecord) :
  List.NoDup (List.map problemId prev) ->
  List.NoDup (List.map problemId (optimisticUpdate P b now prev)).
Proof.
  intros Hnd.
  destruct (List.find (fun p => String.eqb (problemId p) P) prev) as [e|] eqn:Hfind.
  - rewrite (optimisticUpdate_existing _ _ _ _ _ Hfind). now rewrite problemId_map_set_flag.
  - rewrite (optimisticUpdate_absent _ _ _ _ Hfind), List.map_app. simpl.
    apply List.NoDup_app; [exact Hnd | constructor; [intros []|constructor] |].
    intros x Hx [<-|[]]. apply List.in_map_iff in Hx. destruct Hx as [r [Hid Hin]].
    apply (List.find_none _ _ Hfind) in Hin. rewrite Hid, String.eqb_refl in Hin.
    discriminate.
Qed.

Lemma revertUpdate_NoDup (P : string) (c : bool) (prev : list ProgressRecord) :
  List.NoDup (List.map problemId prev) ->
  List.NoDup (List.map problemId (revertUpdate P c prev)).
Proof.
  intros Hnd. rewrite revertUpdate_unfold.
  apply NoDup_map_filter. now rewrite problemId_map_set_flag.
Qed.

Lemma act_NoDup (st : State) (a : Action) :
  List.NoDup (List.map problemId (userProgress st)) ->
  List.NoDup (List.map problemId (userProgress (act st a))).
Proof.
  intros Hnd. destruct a as [problem now | Q c [u|]]; cbn [act].
  - unfold click. destruct (disabled _); [exact Hnd|].
    now apply optimisticUpdate_NoDup.
  - exact Hnd.
  - now apply revertUpdate_NoDup.
Qed.

(** The persisted records of a store, by problem and record identifier. *)
Lemma kept_map_set_flag (P : string) (c : bool) (l : list ProgressRecord) :
  List.map (fun r => (problemId r, _id r))
           (List.filter Page.keptByRevert (List.map (set_flag P c) l))
  = List.map (fun r => (problemId r, _id r)) (List.filter Page.keptByRevert l).
Proof.
  induction l as [|r rest IH]; simpl; [reflexivity|].
  assert (Page.keptByRevert (set_flag P c r) = Page.keptByRevert r) as ->
    by (unfold Page.keptByRevert; now rewrite set_flag_id).
  destruct (Page.keptByRevert r); simpl; [|exact IH].
  now rewrite set_flag_problemId, set_flag_id, IH.
Qed.

Lemma filter_kept_twice (l : list ProgressRecord) :
  List.filter Page.keptByRevert (List.filter Page.keptByRevert l)
  = List.filter Page.keptByRevert l.
Proof.
  induction l as [|r rest IH]; simpl; [reflexivity|].
  destruct (Page.keptByRevert r) eqn:E; simpl; [|exact IH].
  now rewrite E, IH.
Qed.

Lemma kept_optimisticUpdate (P : string) (b : bool) (now : N)
    (prev : list ProgressRecord) :
  List.map (fun r => (problemId r, _id r))
           (List.filter Page.keptByRevert (optimisticUpdate P b now prev))
  = List.map (fun r => (problemId r, _id r)) (List.filter Page.keptByRevert prev).
Proof.
  destruct (List.find (fun p => String.eqb (problemId p) P) prev) as [e|] eqn:Hfind.
  - rewrite (optimisticUpdate_existing _ _ _ _ _ Hfind). apply kept_map_set_flag.
  - rewrite (optimisticUpdate_absent _ _ _ _ Hfind), List.filter_app. simpl.
    assert (Page.keptByRevert
              {| problemId := P; completed := b; _id := temp_id P now |} = false) as ->
      by (unfold Page.keptByRevert; cbn [_id]; now rewrite temp_id_is_temporary).
    now rewrite List.app_nil_r.
Qed.

Lemma kept_revertUpdate (P : string) (c : bool) (prev : list ProgressRecord) :
  List.map (fun r => (problemId r, _id r))
           (List.filter Page.keptByRevert (revertUpdate P c prev))
  = List.map (fun r => (problemId r, _id r)) (List.filter Page.keptByRevert prev).
Proof.
  rewrite revertUpdate_unfold.
  change (fun progress : ProgressRecord => negb (String.prefix "temp-" (_id progress)))
    with Page.keptByRevert.
  rewrite filter_kept_twice. apply kept_map_set_flag.
Qed.

Lemma act_kept (st : State) (a : Action) :
  List.map (fun r => (problemId r, _id r))
           (List.filter Page.keptByRevert (userProgress (act st a)))
  = List.map (fun r => (problemId r, _id r))
             (List.filter Page.keptByRevert (userProgress st)).
Proof.
  destruct a as [problem now | Q c [u|]]; cbn [act].
  - unfold click. destruct (disabled _); [reflexivity|].
    apply kept_optimisticUpdate.
  - reflexivity.
  - apply kept_revertUpdate.
Qed.

Lemma In_optimisticUpdate_other (P : string) (b : bool) (now : N)
    (prev : list ProgressRecord) (r : ProgressRecord) :
  problemId r <> P ->
  (In r (optimisticUpdate P b now prev) <-> In r prev).
Proof.
  intros Hne.
  destruct (List.find (fun p => String.eqb (problemId p) P) prev) as [e|] eqn:Hfind.
  - rewrite (optimisticUpdate_existing _ _ _ _ _ Hfind), List.in_map_iff. split.
    + intros [x [Hx Hin]].
      destruct (String.eqb_spec (problemId x) P) as [He|Hx'].
      * exfalso. apply Hne. rewrite <- Hx, set_flag_problemId. exact He.
      * rewrite set_flag_other in Hx by exact Hx'. now subst.
    + intros Hin. exists r. split; [now apply set_flag_other | exact Hin].
  - rewrite (optimisticUpdate_absent _ _ _ _ Hfind), List.in_app_iff. simpl.
    split; [|auto]. intros [H|[H|[]]]; [exact H|].
    exfalso. apply Hne. now rewrite <- H.
Qed.

Lemma In_act_other (st : State) (a : Action) (r : ProgressRecord) :
  persisted r -> action_id a <> problemId r ->
  (In r (userProgress (act st a)) <-> In r (userProgress st)).
Proof.
  intros Hp Hne. destruct a as [problem now | Q c [u|]]; cbn [act action_id] in *.
  - unfold click. destruct (disabled _); [reflexivity|].
    apply In_optimisticUpdate_other. cbn [render_checkbox key]. congruence.
  - reflexivity.
  - apply revertUpdate_frame_persisted; [congruence | exact Hp].
Qed.

Lemma set_flag_comm (P Q : string) (c c' : bool) (r : ProgressRecord) :
  P <> Q ->
  set_flag Q c' (set_flag P c r) = set_flag P c (set_flag Q c' r).
Proof.
  intros Hne. unfold set_flag, with_completed.
  destruct (String.eqb (problemId r) P) eqn:EP,
           (String.eqb (problemId r) Q) eqn:EQ;
    simpl; rewrite ?EP, ?EQ; try reflexivity.
  apply String.eqb_eq in EP, EQ. congruence.
Qed.

Lemma revertUpdate_comm (P Q : string) (c c' : bool) (l : list ProgressRecord) :
  P <> Q ->
  revertUpdate Q c' (revertUpdate P c l) = revertUpdate P c (revertUpdate Q c' l).
Proof.
  intros Hne. rewrite !revertUpdate_unfold.
  induction l as [|r rest IH]; simpl; [reflexivity|].
  rewrite !set_flag_id.
  destruct (String.prefix "temp-" (_id r)) eqn:E; simpl; [exact IH|].
  rewrite !set_flag_id, E. simpl.
  now rewrite IH, (set_flag_comm P Q c c' r Hne).
Qed.

Lemma dispatched_act (st : State) (a : Action) :
  dispatched (act st a)
  = (dispatched st ++ if Page.succeeded a then ["progressUpdated"] else [])%list.
Proof.
  destruct a as [problem now | Q c [u|]]; cbn [act Page.succeeded].
  - unfold click. destruct (disabled _); simpl; now rewrite List.app_nil_r.
  - reflexivity.
  - simpl. now rewrite List.app_nil_r.
Qed.

Lemma in_flight_add_remove (P : string) (X : gset string) :
  P ∉ X -> ({[ P ]} ∪ X) ∖ {[ P ]} = X.
Proof.
  intros Hout. apply set_eq. intros x.
  rewrite elem_of_difference, elem_of_union, elem_of_singleton. split.
  - intros [[->|Hx] Hne]; [now elim Hne | exact Hx].
  - intros Hx. split; [now right|]. intros ->. contradiction.
Qed.

Lemma in_flight_add_remove_any (P : string) (X : gset string) :
  ({[ P ]} ∪ X) ∖ {[ P ]} = X ∖ {[ P ]}.
Proof.
  apply set_eq. intros x.
  rewrite !elem_of_difference, elem_of_union, elem_of_singleton. tauto.
Qed.

Lemma in_flight_remove_comm (P Q : string) (X : gset string) :
  (X ∖ {[ P ]}) ∖ {[ Q ]} = (X ∖ {[ Q ]}) ∖ {[ P ]}.
Proof.
  apply set_eq. intros x. rewrite !elem_of_difference. tauto.
Qed.

Lemma in_flight_add_other (P Q : string) (X : gset string) :
  Q <> P -> (Q ∈ {[ P ]} ∪ X <-> Q ∈ X).
Proof.
  intros Hne. rewrite elem_of_union, elem_of_singleton. tauto.
Qed.

(** A click or a successful settling leaves the answer for every
    problem it does not concern as it was. *)
Lemma act_answer_other (st : State) (a : Action) (Q : string) :
  action_id a <> Q -> Page.failed a = false ->
  isProblemCompleted (userProgress (act st a)) Q
  = isProblemCompleted (userProgress st) Q.
Proof.
  intros Hne Hok. destruct a as [problem now | R c [u|]]; cbn [act action_id] in *.
  - unfold click. destruct (disabled _); [reflexivity|].
    cbn [toggle_begin userProgress render_checkbox key]. rewrite optimisticUpdate_answer.
    destruct (String.eqb_spec Q (problem_id problem)); [congruence | reflexivity].
  - reflexivity.
  - discriminate.
Qed.

Lemma run_answer_other (actions : list Action) (Q : string) : forall st,
  Forall (fun a => action_id a <> Q /\ Page.failed a = false) actions ->
  isProblemCompleted (userProgress (run st actions)) Q
  = isProblemCompleted (userProgress st) Q.
Proof.
  induction actions as [|a rest IH]; intros st Hall; [reflexivity|].
  inversion Hall as [|? ? [Hne Hok] Hrest]; subst. simpl.
  rewrite (IH _ Hrest). now apply act_answer_other.
Qed.

End Store.

(** X1: on a store that holds persisted records only, at most one per
    problem, a toggle of an identifier that is not in flight whose
    request fails leaves the whole component state as it was: store,
    in-flight set and dispatched events. *)
Theorem failed_toggle_restores_state
    (st : TopicDetail.State) (P : string) (now : N) :
  Forall TopicDetail.persisted (TopicDetail.userProgress st) ->
  List.NoDup (List.map problemId (TopicDetail.userProgress st)) ->
  P ∉ TopicDetail.updatingProblems st ->
  snd (TopicDetail.toggleProblemProgress st P
         (TopicDetail.isProblemCompleted (TopicDetail.userProgress st) P) now Rejected)
  = st.
Proof.
  intros Hp Hnd Hidle. destruct st as [t store l inflight events].
  cbn [TopicDetail.userProgress TopicDetail.updatingProblems] in *.
  unfold TopicDetail.toggleProblemProgress, TopicDetail.toggle_settle,
    TopicDetail.toggle_begin.
  cbn [snd TopicDetail.topic TopicDetail.userProgress TopicDetail.loading
       TopicDetail.updatingProblems TopicDetail.dispatched].
  rewrite (revert_optimistic_persisted _ _ _ _ _ Hp), (map_set_flag_answer _ _ Hnd).
  f_equal. now apply in_flight_add_remove.
Qed.

Lemma failed_toggle_restores_state_witness :
  let st :=
    TopicDetail.fetchData (Fulfilled Sample.arrays)
      (Fulfilled Sample.progress_4_of_6) TopicDetail.initial in
  snd (TopicDetail.toggleProblemProgress st "p2" true 1700000000000 Rejected) = st.
Proof.
  refine (failed_toggle_restores_state
            (TopicDetail.fetchData (Fulfilled Sample.arrays)
               (Fulfilled Sample.progress_4_of_6) TopicDetail.initial)
            "p2" 1700000000000 _ _ _).
  - repeat constructor.
  - vm_compute. repeat constructor; simpl; intuition discriminate.
  - apply not_elem_of_empty.
Defined.

(** X2: a toggle whose request succeeds, while nothing but clicks and
    successful settlings of other problems happens before it settles,
    sets the completion of its problem to the negation of the flag it
    was called with and leaves the answer for every identifier that
    neither it nor those actions concern as it was; its settling
    dispatches one [progressUpdated] event and takes the identifier out
    of the in-flight set. *)
Theorem successful_toggle_effect
    (st : TopicDetail.State) (P : string) (completed0 : bool) (now : N)
    (meanwhile : list TopicDetail.Action) :
  Forall (fun a => TopicDetail.action_id a <> P /\ Page.failed a = false) meanwhile ->
  let flag s := TopicDetail.isProblemCompleted (TopicDetail.userProgress s) in
  let pending := TopicDetail.toggle_begin st P completed0 now in
  let before := TopicDetail.run pending meanwhile in
  let st' := TopicDetail.toggle_settle before P completed0 (Fulfilled tt) in
  flag st' P = negb completed0 /\
  (forall Q, Q <> P ->
             Forall (fun a => TopicDetail.action_id a <> Q) meanwhile ->
             flag st' Q = flag st Q) /\
  TopicDetail.dispatched st'
  = (TopicDetail.dispatched before ++ ["progressUpdated"])%list /\
  P ∉ TopicDetail.updatingProblems st'.
Proof.
  intros Hquiet. cbv zeta. split; [|split; [|split]].
  - cbn [TopicDetail.toggle_settle TopicDetail.userProgress].
    rewrite (run_answer_other meanwhile P _ Hquiet).
    cbn [TopicDetail.toggle_begin TopicDetail.userProgress].
    now rewrite optimisticUpdate_answer, String.eqb_refl.
  - intros Q Hne HQ. cbn [TopicDetail.toggle_settle TopicDetail.userProgress].
    rewrite (run_answer_other meanwhile Q).
    + cbn [TopicDetail.toggle_begin TopicDetail.userProgress].
      rewrite optimisticUpdate_answer.
      now rewrite (proj2 (String.eqb_neq _ _) Hne).
    + rewrite List.Forall_forall in *. intros a Ha.
      split; [now apply HQ | now apply (Hquiet a Ha)].
  - reflexivity.
  - rewrite updatingProblems_toggle_settle.
    intros [_ Hout]%elem_of_difference. apply Hout. now apply elem_of_singleton.
Qed.

Lemma successful_toggle_effect_witness :
  let pending := TopicDetail.toggle_begin Sample.loaded "bfs" false 1700000000000 in
  let before :=
    TopicDetail.run pending
      [TopicDetail.Click Sample.two_sum 1700000000001;
       TopicDetail.Settle "two-sum" false (Fulfilled tt)] in
  TopicDetail.isProblemCompleted
    (TopicDetail.userProgress
       (TopicDetail.toggle_settle before "bfs" false (Fulfilled tt))) "bfs"
  = true.
Proof.
  refine (proj1 (successful_toggle_effect Sample.loaded "bfs" false 1700000000000
                   [TopicDetail.Click Sample.two_sum 1700000000001;
                    TopicDetail.Settle "two-sum" false (Fulfilled tt)] _)).
  repeat constructor; discriminate.
Defined.

(** X3: a click on a checkbox that is not disabled shows at once the
    flipped flag on that checkbox and disables it; the checkbox of every
    other problem is rendered as before. *)
Theorem click_flips_and_disables
    (st : TopicDetail.State) (problem : Problem) (now : N) :
  problem_id problem ∉ TopicDetail.updatingProblems st ->
  TopicDetail.render_checkbox (TopicDetail.click st problem now) problem
  = {| TopicDetail.key := problem_id problem;
       TopicDetail.checked :=
         negb (TopicDetail.checked (TopicDetail.render_checkbox st problem));
       TopicDetail.disabled := true |} /\
  (forall other, problem_id other <> problem_id problem ->
     TopicDetail.render_checkbox (TopicDetail.click st problem now) other
     = TopicDetail.render_checkbox st other).
Proof.
  intros Hidle. rewrite (click_idle _ _ _ Hidle). unfold TopicDetail.render_checkbox.
  cbn [TopicDetail.toggle_begin TopicDetail.userProgress TopicDetail.updatingProblems
       TopicDetail.checked].
  split.
  - rewrite optimisticUpdate_answer, String.eqb_refl. f_equal.
    apply bool_decide_eq_true_2, elem_of_union_l. now apply elem_of_singleton.
  - intros other Hne. rewrite optimisticUpdate_answer.
    rewrite (proj2 (String.eqb_neq _ _) Hne). f_equal.
    apply bool_decide_ext. now apply in_flight_add_other.
Qed.

Lemma click_flips_and_disables_witness :
  TopicDetail.render_checkbox
    (TopicDetail.click Sample.loaded Sample.bfs 1700000000000) Sample.bfs
  = {| TopicDetail.key := "bfs"; TopicDetail.checked := true;
       TopicDetail.disabled := true |}.
Proof.
  refine (proj1 (click_flips_and_disables Sample.loaded Sample.bfs 1700000000000 _)).
  apply not_elem_of_empty.
Defined.

(** X4: two toggles of one problem in a row, each called with the flag
    the store answers and each succeeding, bring the completion of every
    identifier back to what it was. *)
Theorem toggle_twice_restores_answers
    (st : TopicDetail.State) (P : string) (now now' : N) :
  let flag s := TopicDetail.isProblemCompleted (TopicDetail.userProgress s) in
  let st1 := snd (TopicDetail.toggleProblemProgress st P (flag st P) now (Fulfilled tt)) in
  let st2 := snd (TopicDetail.toggleProblemProgress st1 P (flag st1 P) now'
                    (Fulfilled tt)) in
  forall Q, flag st2 Q = flag st Q.
Proof.
  cbv zeta. intros Q. simpl. rewrite !optimisticUpdate_answer, String.eqb_refl.
  destruct (String.eqb_spec Q P) as [->|Hne]; [apply negb_involutive | reflexivity].
Qed.

(** X5: clicks and settlings never bring a second record for a problem
    into the store: a store with at most one record per problem
    identifier keeps that property through every sequence of actions. *)
Theorem run_keeps_one_record_per_problem
    (st : TopicDetail.State) (actions : list TopicDetail.Action) :
  List.NoDup (List.map problemId (TopicDetail.userProgress st)) ->
  List.NoDup (List.map problemId
                (TopicDetail.userProgress (TopicDetail.run st actions))).
Proof.
  revert st. induction actions as [|a rest IH]; intros st Hnd; [exact Hnd|].
  simpl. apply IH. now apply act_NoDup.
Qed.

Lemma run_keeps_one_record_per_problem_witness :
  List.NoDup
    (List.map problemId
       (TopicDetail.userProgress
          (TopicDetail.run Sample.loaded
             [TopicDetail.Click Sample.bfs 1700000000000;
              TopicDetail.Click Sample.two_sum 1700000000001;
              TopicDetail.Settle "bfs" false (Fulfilled tt);
              TopicDetail.Click Sample.bfs 1700000000002]))).
Proof.
  refine (run_keeps_one_record_per_problem Sample.loaded _ _).
  constructor.
Defined.

(** X6: no sequence of clicks and settlings adds, removes or reorders a
    persisted record (one the revert's filter keeps) or changes its
    identifiers; and a persisted record whose problem none of the
    actions concerns is in the store afterwards exactly if it was
    before, flag included. *)
Theorem run_keeps_persisted_records
    (st : TopicDetail.State) (actions : list TopicDetail.Action) :
  let kept s :=
    List.map (fun r => (problemId r, _id r))
             (List.filter Page.keptByRevert (TopicDetail.userProgress s)) in
  kept (TopicDetail.run st actions) = kept st /\
  (forall r, TopicDetail.persisted r ->
             Forall (fun a => TopicDetail.action_id a <> problemId r) actions ->
             (In r (TopicDetail.userProgress (TopicDetail.run st actions))
              <-> In r (TopicDetail.userProgress st))).
Proof.
  cbv zeta. revert st. induction actions as [|a rest IH]; intros st.
  - split; [reflexivity | tauto].
  - destruct (IH (TopicDetail.act st a)) as [IHk IHin]. simpl. split.
    + rewrite IHk. apply act_kept.
    + intros r Hp Hall. inversion Hall as [|? ? Ha Hrest]; subst.
      rewrite (IHin r Hp Hrest). now apply In_act_other.
Qed.

Lemma run_keeps_persisted_records_witness :
  let st :=
    TopicDetail.fetchData (Fulfilled Sample.arrays)
      (Fulfilled Sample.progress_4_of_6) TopicDetail.initial in
  In (Sample.record_n true 2)
     (TopicDetail.userProgress
        (TopicDetail.run st [TopicDetail.Click (Sample.problem_n 3) 1700000000000;
                             TopicDetail.Settle "p3" false Rejected]))
  <-> In (Sample.record_n true 2) (TopicDetail.userProgress st).
Proof.
  refine (proj2 (run_keeps_persisted_records
                   (TopicDetail.fetchData (Fulfilled Sample.arrays)
                      (Fulfilled Sample.progress_4_of_6) TopicDetail.initial)
                   [TopicDetail.Click (Sample.problem_n 3) 1700000000000;
                    TopicDetail.Settle "p3" false Rejected])
                (Sample.record_n true 2) _ _).
  - reflexivity.
  - repeat constructor; discriminate.
Defined.

(** X7: the requests of two different problems may settle in either
    order: the component state is the same, whatever the two outcomes. *)
Theorem settle_order_irrelevant
    (st : TopicDetail.State) (P Q : string) (c c' : bool)
    (response response' : Response unit) :
  P <> Q ->
  TopicDetail.toggle_settle (TopicDetail.toggle_settle st P c response) Q c' response'
  = TopicDetail.toggle_settle (TopicDetail.toggle_settle st Q c' response') P c response.
Proof.
  intros Hne. unfold TopicDetail.toggle_settle.
  destruct response as [u|], response' as [u'|];
    cbn [TopicDetail.topic TopicDetail.userProgress TopicDetail.loading
         TopicDetail.updatingProblems TopicDetail.dispatched];
    f_equal; try reflexivity; try apply in_flight_remove_comm.
  now apply revertUpdate_comm.
Qed.

Lemma settle_order_irrelevant_witness :
  let st :=
    TopicDetail.run Sample.loaded
      [TopicDetail.Click Sample.bfs 1700000000000;
       TopicDetail.Click Sample.two_sum 1700000000001] in
  TopicDetail.toggle_settle
    (TopicDetail.toggle_settle st "bfs" false Rejected) "two-sum" false (Fulfilled tt)
  = TopicDetail.toggle_settle
      (TopicDetail.toggle_settle st "two-sum" false (Fulfilled tt)) "bfs" false Rejected.
Proof.
  refine (settle_order_irrelevant _ "bfs" "two-sum" false false Rejected (Fulfilled tt) _).
  discriminate.
Defined.

(** X9: over any sequence of clicks and settlings the component
    dispatches one [progressUpdated] event for each request that
    succeeded, in addition to the events dispatched before, and nothing
    else; each of these events is one [Dashboard] listens to. *)
Theorem one_event_per_success
    (st : TopicDetail.State) (actions : list TopicDetail.Action) :
  let fired :=
    repeat "progressUpdated" (length (List.filter Page.succeeded actions)) in
  TopicDetail.dispatched (TopicDetail.run st actions)
  = (TopicDetail.dispatched st ++ fired)%list /\
  Forall (fun eventName => Page.listens eventName = true) fired.
Proof.
  cbv zeta. split.
  - revert st. induction actions as [|a rest IH]; intros st; simpl.
    + now rewrite List.app_nil_r.
    + rewrite IH, dispatched_act.
      destruct (Page.succeeded a); simpl; rewrite <- List.app_assoc; reflexivity.
  - apply List.Forall_forall. intros e He. apply List.repeat_spec in He.
    now subst.
Qed.

(** X8: in every state the page reaches, the checkbox of a problem is
    disabled exactly when a request for that problem has not settled,
    and no problem has two unsettled requests. *)
Theorem disabled_iff_request_pending (s : TopicDetail.System) (problem : Problem) :
  TopicDetail.reachable s ->
  (TopicDetail.disabled (TopicDetail.render_checkbox (TopicDetail.ui s) problem) = true
   <-> In (problem_id problem) (List.map fst (TopicDetail.requests s))) /\
  List.NoDup (List.map fst (TopicDetail.requests s)).
Proof.
  intros Hreach. destruct (in_flight_is_pending_requests s Hreach) as [Hnd Hset].
  split; [|exact Hnd].
  cbn [TopicDetail.render_checkbox TopicDetail.disabled].
  now rewrite bool_decide_eq_true, Hset.
Qed.

Lemma disabled_iff_request_pending_witness :
  let s :=
    {| TopicDetail.ui := TopicDetail.click Sample.loaded Sample.bfs 1700000000000;
       TopicDetail.requests := [("bfs", false)] |} in
  TopicDetail.disabled (TopicDetail.render_checkbox (TopicDetail.ui s) Sample.bfs) = true
  <-> In "bfs" ["bfs"].
Proof.
  refine (proj1 (disabled_iff_request_pending
                   {| TopicDetail.ui :=
                        TopicDetail.click Sample.loaded Sample.bfs 1700000000000;
                      TopicDetail.requests := [("bfs", false)] |}
                   Sample.bfs _)).
  refine (TopicDetail.reachable_step _ _
            (TopicDetail.reachable_loaded Sample.sheet [])
            (TopicDetail.step_click
               {| TopicDetail.ui := Sample.loaded; TopicDetail.requests := [] |}
               Sample.bfs 1700000000000 _)).
  apply not_elem_of_empty.
Defined.

(** X10: [fetchData] of TopicDetail always ends the loading state.  When
    both requests succeed the store is the fetched progress list and the
    page shows the fetched topic with its progress bar, or its render
    throws when the fetched topic has no [problems].  When one of the
    requests fails, the progress request alone included, topic and store
    stay as they were, so after a failed first load the page shows
    "Topic not found".  In no case are the in-flight set or the
    dispatched events touched. *)
Theorem fetchData_view
    (topicResponse : Response Topic)
    (progressResponse : Response (list ProgressRecord)) (st : TopicDetail.State) :
  let st' := TopicDetail.fetchData topicResponse progressResponse st in
  Page.render st' <> Page.Spinner /\
  (forall t progress,
      topicResponse = Fulfilled t -> progressResponse = Fulfilled progress ->
      TopicDetail.userProgress st' = progress /\
      match problems t with
      | Some ps =>
          exists bar, TopicDetail.progressBar t progress = Some bar /\
                      Page.render st' = Page.TopicPage t bar
      | None => Page.render st' = Page.RenderThrows
      end) /\
  (topicResponse = Rejected \/ progressResponse = Rejected ->
   TopicDetail.topic st' = TopicDetail.topic st /\
   TopicDetail.userProgress st' = TopicDetail.userProgress st /\
   Page.render (TopicDetail.fetchData topicResponse progressResponse TopicDetail.initial)
   = Page.TopicNotFound) /\
  TopicDetail.updatingProblems st' = TopicDetail.updatingProblems st /\
  TopicDetail.dispatched st' = TopicDetail.dispatched st.
Proof.
  cbv zeta. split; [|split; [|split]].
  - unfold Page.render.
    assert (TopicDetail.loading
              (TopicDetail.fetchData topicResponse progressResponse st) = false) as ->
      by (destruct topicResponse, progressResponse; reflexivity).
    destruct (TopicDetail.topic _) as [t|]; [|discriminate].
    destruct (TopicDetail.progressBar _ _); discriminate.
  - intros t progress -> ->. split; [reflexivity|].
    unfold Page.render, TopicDetail.progressBar. simpl.
    destruct (problems t) as [ps|]; [|reflexivity].
    eexists. split; reflexivity.
  - intros [-> | ->]; [destruct progressResponse | destruct topicResponse]; auto.
  - destruct topicResponse, progressResponse; auto.
Qed.

Lemma fetchData_view_witness :
  Page.render (TopicDetail.fetchData (Fulfilled Sample.sheet) Rejected
                                     TopicDetail.initial)
  = Page.TopicNotFound.
Proof.
  refine (proj2 (proj2 (proj1 (proj2 (proj2
            (fetchData_view (Fulfilled Sample.sheet) Rejected TopicDetail.initial)))
            (or_intror eq_refl)))).
Defined.

(** X11: neither page shows more completed problems than problems for a
    topic: the progress bar of TopicDetail and every topic card of the
    dashboard have completed <= total. *)
Theorem shown_counts_bounded :
  (forall t userProgress bar,
      TopicDetail.progressBar t userProgress = Some bar ->
      TopicDetail.completedProblems bar <= TopicDetail.totalProblems bar) /\
  (forall shown,
      Dashboard.card_completedProblems (Dashboard.topicCard shown)
      <= Dashboard.card_totalProblems (Dashboard.topicCard shown)).
Proof.
  split.
  - intros t userProgress bar. unfold TopicDetail.progressBar.
    destruct (problems t) as [ps|]; [|discriminate].
    intros [= <-]. simpl. apply List.filter_length_le.
  - intros shown. unfold Dashboard.topicCard. simpl.
    destruct (Dashboard.problems_with_progress shown) as [ps|]; [|lia].
    apply List.filter_length_le.
Qed.

Lemma shown_counts_bounded_witness :
  let bar :=
    {| TopicDetail.completedProblems := 2; TopicDetail.totalProblems := 4;
       TopicDetail.percentage := percentageOf 2 4 |} in
  TopicDetail.progressBar Sample.arrays Sample.progress_4_of_6 = Some bar /\
  TopicDetail.completedProblems bar <= TopicDetail.totalProblems bar.
Proof.
  split; [reflexivity|].
  exact (proj1 shown_counts_bounded Sample.arrays Sample.progress_4_of_6 _ eq_refl).
Defined.

(** X16: the count in the header of the topic page is the number of
    ticked checkboxes of its list, and its total the number of
    checkboxes, in every state of the component. *)
Theorem progress_bar_counts_ticked_boxes
    (st : TopicDetail.State) (t : Topic) (ps : list Problem) :
  problems t = Some ps ->
  exists bar,
    TopicDetail.progressBar t (TopicDetail.userProgress st) = Some bar /\
    TopicDetail.completedProblems bar
    = length (List.filter TopicDetail.checked (Page.checkboxes st ps)) /\
    TopicDetail.totalProblems bar = length (Page.checkboxes st ps).
Proof.
  intros Hps. unfold TopicDetail.progressBar. rewrite Hps.
  eexists. split; [reflexivity|]. simpl. unfold Page.checkboxes.
  rewrite List.length_map. split; [|reflexivity]. clear Hps.
  induction ps as [|p rest IH]; simpl; [reflexivity|].
  destruct (TopicDetail.isProblemCompleted _ _); simpl; now rewrite IH.
Qed.

Lemma progress_bar_counts_ticked_boxes_witness :
  exists bar,
    TopicDetail.progressBar Sample.sheet (TopicDetail.userProgress Sample.loaded)
    = Some bar /\
    TopicDetail.completedProblems bar
    = length (List.filter TopicDetail.checked
                (Page.checkboxes Sample.loaded [Sample.two_sum; Sample.bfs])) /\
    TopicDetail.totalProblems bar
    = length (Page.checkboxes Sample.loaded [Sample.two_sum; Sample.bfs]).
Proof.
  exact (progress_bar_counts_ticked_boxes Sample.loaded Sample.sheet
           [Sample.two_sum; Sample.bfs] eq_refl).
Defined.

(** ** Further properties of the dashboard *)

Section Cards.

Lemma percent_in_range_upto_199 : Page.percent_in_range_upto 199 = true.
Proof. vm_cast_no_check (eq_refl true). Qed.

Lemma row_in_range_sound (total : nat) (f : nat -> option Z) :
  forall n c0 prev,
    Page.row_in_range total c0 prev (List.map f (seq c0 n)) = true ->
    forall c, c0 <= c < c0 + n ->
      exists z, f c = Some z /\
                Page.entry_in_range total c (Some z) = true /\
                (c = c0 -> (prev <= z)%Z) /\
                (S c < c0 + n -> exists z', f (S c) = Some z' /\ (z <= z')%Z).
Proof.
  induction n as [|n IH]; intros c0 prev Hrow c Hc; [lia|].
  simpl in Hrow. apply andb_prop in Hrow. destruct Hrow as [Hentry Hrest].
  destruct (f c0) as [z|] eqn:Hf; [|discriminate].
  apply andb_prop in Hrest. destruct Hrest as [Hprev Hrest].
  apply Z.leb_le in Hprev.
  destruct (Nat.eq_dec c c0) as [->|Hne].
  - exists z. split; [exact Hf|]. split; [exact Hentry|]. split; [auto|].
    intros Hnext. destruct (IH (S c0) z Hrest (S c0)) as [z' [Hf' [_ [Hle _]]]];
      [lia|]. exists z'. auto.
  - destruct (IH (S c0) z Hrest c) as [z' [Hf' [Hin [_ Hnext]]]]; [lia|].
    exists z'. split; [exact Hf'|]. split; [exact Hin|]. split; [lia|].
    intros Hlt. apply Hnext. lia.
Qed.

Lemma percent_in_range_upto_sound (bound : nat) :
  Page.percent_in_range_upto bound = true ->
  forall c total, c <= total -> 0 < total <= bound ->
    exists z, Page.shownPercent c total = Some z /\
              Page.entry_in_range total c (Some z) = true /\
              (c < total ->
               exists z', Page.shownPercent (S c) total = Some z' /\ (z <= z')%Z).
Proof.
  unfold Page.percent_in_range_upto, Page.percent_row. intros H c total Hc Ht.
  rewrite forallb_forall in H. specialize (H total).
  assert (In total (seq 1 bound)) as Hin by (apply in_seq; lia).
  destruct (row_in_range_sound total (fun c => Page.shownPercent c total)
              (S total) 0 0%Z (H Hin) c) as [z [Hf [Hentry [_ Hnext]]]]; [lia|].
  exists z. split; [exact Hf|]. split; [exact Hentry|].
  intros Hlt. apply Hnext. lia.
Qed.

(** The topics [fetchData] shows when every topic has its [problems]. *)
Lemma topicsWithProgress_closed (done : gset string) (topicsData : list Topic) :
  Forall (fun t => problems t <> None) topicsData ->
  Dashboard.topicsWithProgress done topicsData
  = Some (List.map (fun t => Page.shownTopic done t
                               (match problems t with Some ps => ps | None => [] end))
                   topicsData).
Proof.
  induction 1 as [|t rest Ht _ IH]; simpl; [reflexivity|].
  rewrite IH. unfold Dashboard.withProgress, Page.shownTopic.
  destruct (problems t) as [ps|]; [reflexivity | contradiction].
Qed.

Lemma topicsWithProgress_missing (done : gset string) (topicsData : list Topic) :
  Dashboard.topicsWithProgress done topicsData = None
  <-> Exists (fun t => problems t = None) topicsData.
Proof.
  induction topicsData as [|t rest IH]; simpl.
  - split; [discriminate | intros H; inversion H].
  - unfold Dashboard.withProgress at 1. rewrite List.Exists_cons, <- IH.
    destruct (problems t) as [ps|]; [|tauto].
    destruct (Dashboard.topicsWithProgress done rest); split; try tauto;
      try discriminate.
    intros [H|H]; discriminate.
Qed.

Lemma card_of_shownTopic (done : gset string) (t : Topic) (ps : list Problem) :
  Dashboard.card_totalProblems (Dashboard.topicCard (Page.shownTopic done t ps))
  = length ps /\
  Dashboard.card_completedProblems (Dashboard.topicCard (Page.shownTopic done t ps))
  = length (List.filter (fun p => bool_decide (problem_id p ∈ done)) ps).
Proof.
  unfold Dashboard.topicCard, Page.shownTopic. simpl.
  now rewrite List.length_map, length_filter_map_flag.
Qed.

End Cards.

(** X12: for a topic of at most 199 problems the percentage shown for
    [c] completed out of [total] is an integer from 0 to 100; it is 100
    only when every problem is completed and 0 only when none is, and
    one more completed problem never lowers it.  Beyond that size the
    two "only" fail: 199 of 200 shows 100 and 1 of 201 shows 0. *)
Theorem shown_percentage_range (c total : nat) :
  c <= total -> 0 < total <= 199 ->
  (exists z,
      Page.shownPercent c total = Some z /\
      (0 <= z <= 100)%Z /\
      (z = 100%Z <-> c = total) /\
      (z = 0%Z <-> c = 0) /\
      (c < total ->
       exists z', Page.shownPercent (S c) total = Some z' /\ (z <= z')%Z)) /\
  Page.shownPercent 199 200 = Some 100%Z /\
  Page.shownPercent 1 201 = Some 0%Z.
Proof.
  intros Hc Ht. split; [|split; vm_compute; reflexivity].
  destruct (percent_in_range_upto_sound 199 percent_in_range_upto_199 c total Hc Ht)
    as [z [Hz [Hok Hnext]]].
  exists z. split; [exact Hz|]. unfold Page.entry_in_range in Hok.
  apply andb_prop in Hok. destruct Hok as [Hok Hnone].
  apply andb_prop in Hok. destruct Hok as [Hok Hfull].
  apply andb_prop in Hok. destruct Hok as [Hlow Hhigh].
  apply Z.leb_le in Hlow, Hhigh. apply Bool.eqb_prop in Hfull, Hnone.
  split; [lia|]. split; [|split; [|exact Hnext]].
  - rewrite <- Z.eqb_eq, Hfull. apply Nat.eqb_eq.
  - rewrite <- Z.eqb_eq, Hnone. apply Nat.eqb_eq.
Qed.

Lemma shown_percentage_range_witness :
  exists z, Page.shownPercent 23 40 = Some z /\ (0 <= z <= 100)%Z /\
            (z = 100%Z <-> 23 = 40) /\ (z = 0%Z <-> 23 = 0) /\
            (23 < 40 ->
             exists z', Page.shownPercent 24 40 = Some z' /\ (z <= z')%Z).
Proof.
  refine (proj1 (shown_percentage_range 23 40 _ _)); lia.
Defined.

(** X13: when every fetched topic has its [problems], [fetchData] of the
    dashboard shows one entry per fetched topic, in the order fetched,
    each with all its problems in order, and flags a problem as completed
    exactly when the progress list has a completed record of it. *)
Theorem fetchData_shows_every_topic
    (topicsData : list Topic) (statsResponse : Response (option Dashboard.Stats))
    (progressResponse : Response (list ProgressRecord)) (st : Dashboard.State) :
  Forall (fun t => problems t <> None) topicsData ->
  let userProgress := match progressResponse with Fulfilled d => d | Rejected => [] end in
  let st' :=
    Dashboard.fetchData (Fulfilled topicsData) statsResponse progressResponse st in
  List.map Dashboard.base (Dashboard.topics st') = topicsData /\
  Forall (fun shown =>
            exists ps shownProblems,
              problems (Dashboard.base shown) = Some ps /\
              Dashboard.problems_with_progress shown = Some shownProblems /\
              List.map Dashboard.problem shownProblems = ps /\
              Forall (fun p =>
                        Dashboard.problem_completed p = true
                        <-> exists r, In r userProgress /\
                                      problemId r = problem_id (Dashboard.problem p) /\
                                      completed r = true)
                     shownProblems)
         (Dashboard.topics st') /\
  Dashboard.loading st' = false.
Proof.
  intros Hall. cbv zeta. unfold Dashboard.fetchData.
  rewrite (topicsWithProgress_closed _ _ Hall).
  cbn [Dashboard.topics Dashboard.loading]. split; [|split; [|reflexivity]].
  - rewrite List.map_map. simpl. apply List.map_id.
  - apply List.Forall_forall. intros shown Hin. apply List.in_map_iff in Hin.
    destruct Hin as [t [<- Hin]]. rewrite List.Forall_forall in Hall.
    specialize (Hall t Hin). destruct (problems t) as [ps|] eqn:Hps; [|contradiction].
    exists ps. eexists. cbn [Page.shownTopic Dashboard.base
                              Dashboard.problems_with_progress].
    split; [exact Hps|]. split; [reflexivity|]. split.
    + rewrite List.map_map. simpl. apply List.map_id.
    + apply List.Forall_forall. intros p Hp. apply List.in_map_iff in Hp.
      destruct Hp as [q [<- _]]. simpl. apply completedFlag_spec.
Qed.

Lemma fetchData_shows_every_topic_witness :
  List.map Dashboard.base
    (Dashboard.topics
       (Dashboard.fetchData (Fulfilled [Sample.arrays; Sample.graphs]) Rejected
          (Fulfilled Sample.progress_4_of_6) Dashboard.initial))
  = [Sample.arrays; Sample.graphs].
Proof.
  refine (proj1 (fetchData_shows_every_topic [Sample.arrays; Sample.graphs] Rejected
                   (Fulfilled Sample.progress_4_of_6) Dashboard.initial _)).
  repeat constructor; discriminate.
Defined.

(** X14: after a successful [fetchData] the totals of the topic cards
    add up to the local [total] figure; and when no two records share a
    problem, no two listed problems share an identifier and every
    completed record belongs to a listed problem, the completed counts
    of the cards add up to the local [completed] figure. *)
Theorem cards_add_up
    (topicsData : list Topic) (statsResponse : Response (option Dashboard.Stats))
    (progressResponse : Response (list ProgressRecord)) (st : Dashboard.State) :
  Forall (fun t => problems t <> None) topicsData ->
  let userProgress := match progressResponse with Fulfilled d => d | Rejected => [] end in
  let cards :=
    List.map Dashboard.topicCard
      (Dashboard.topics
         (Dashboard.fetchData (Fulfilled topicsData) statsResponse progressResponse st)) in
  list_sum (List.map Dashboard.card_totalProblems cards)
  = Dashboard.totalProblems topicsData /\
  (List.NoDup (List.map problemId userProgress) ->
   List.NoDup (List.map problem_id (Spec.allProblems topicsData)) ->
   (forall r, In r userProgress -> completed r = true ->
              In (problemId r) (List.map problem_id (Spec.allProblems topicsData))) ->
   list_sum (List.map Dashboard.card_completedProblems cards)
   = Dashboard.completedCount userProgress).
Proof.
  intros Hall. cbv zeta. unfold Dashboard.fetchData.
  rewrite (topicsWithProgress_closed _ _ Hall). cbn [Dashboard.topics].
  rewrite !List.map_map. split.
  - rewrite totalProblems_sum. unfold Spec.globalTotal. f_equal.
    apply List.map_ext. intros t.
    rewrite (proj1 (card_of_shownTopic _ _ _)). unfold Spec.topicTotal.
    now destruct (problems t).
  - intros Hrecords Hproblems Hlisted.
    rewrite (completedCount_sum_over_topics _ _ Hrecords Hproblems Hlisted).
    unfold Spec.globalCompleted. f_equal. apply List.map_ext. intros t.
    rewrite (proj2 (card_of_shownTopic _ _ _)). unfold Spec.topicCompleted.
    now destruct (problems t).
Qed.

Lemma cards_add_up_witness :
  list_sum
    (List.map Dashboard.card_completedProblems
       (List.map Dashboard.topicCard
          (Dashboard.topics
             (Dashboard.fetchData (Fulfilled [Sample.arrays; Sample.graphs]) Rejected
                (Fulfilled Sample.progress_4_of_6) Dashboard.initial))))
  = Dashboard.completedCount Sample.progress_4_of_6.
Proof.
  refine (proj2 (cards_add_up [Sample.arrays; Sample.graphs] Rejected
                   (Fulfilled Sample.progress_4_of_6) Dashboard.initial _) _ _ _).
  - repeat constructor; discriminate.
  - vm_compute. repeat constructor; simpl; intuition discriminate.
  - vm_compute. repeat constructor; simpl; intuition discriminate.
  - intros r Hin Hc. vm_compute in Hin.
    repeat (destruct Hin as [<-|Hin]; [vm_compute; tauto || discriminate|]).
    destruct Hin.
Defined.

Lemma fetchData_failed_witness :
  Dashboard.fetchData Rejected (Fulfilled None) (Fulfilled Sample.progress_4_of_6)
                      Dashboard.initial
  = {| Dashboard.topics := []; Dashboard.stats := Dashboard.zeroStats;
       Dashboard.loading := false |}.
Proof.
  exact (fetchData_failed Rejected (Fulfilled None) (Fulfilled Sample.progress_4_of_6)
           Dashboard.initial I).
Defined.

(** ** The statistics the dashboard shows, in every case *)

(** C7, as the claim states it, fails: when the topics request fails,
    remote statistics with a total of 10 are present and yet the
    statistics shown are all zero. *)
Lemma topics_failure_hides_remote_stats :
  let remote :=
    {| Dashboard.total := of_nat 10; Dashboard.stats_completed := of_nat 3;
       Dashboard.remaining := of_nat 7; Dashboard.percentage := of_nat 30 |} in
  let shown :=
    Dashboard.stats
      (Dashboard.fetchData Rejected (Fulfilled (Some remote))
         (Fulfilled Sample.progress_4_of_6) Dashboard.initial) in
  gt (Dashboard.total remote) PrimFloat.zero = true /\
  shown = Dashboard.zeroStats /\
  shown <> remote.
Proof.
  cbv zeta. split; [vm_compute; reflexivity|]. split; [reflexivity|].
  intros H. apply (f_equal (fun shown => to_Z (Dashboard.total shown))) in H.
  vm_compute in H. discriminate.
Qed.

(** C7 (amended): when the topics request succeeds and every fetched
    topic has its [problems], the statistics [fetchData] shows are the
    remote ones exactly when the statistics response carries data whose
    [total] is greater than zero, and the locally computed figures
    (total, completed, remaining = total - completed, percentage) in
    every other case: a failed statistics request, no data, or a total
    that is not greater than zero.  When the topics request fails, or a
    fetched topic lacks its [problems], the statistics shown are all
    zero, whatever the remote statistics. *)
Theorem displayed_stats_remote_local_or_zero
    (topicsResponse : Response (list Topic))
    (statsResponse : Response (option Dashboard.Stats))
    (progressResponse : Response (list ProgressRecord)) (st : Dashboard.State) :
  let userProgress := match progressResponse with Fulfilled d => d | Rejected => [] end in
  let shown :=
    Dashboard.stats
      (Dashboard.fetchData topicsResponse statsResponse progressResponse st) in
  (forall topicsData,
      topicsResponse = Fulfilled topicsData ->
      Forall (fun t => problems t <> None) topicsData ->
      let totalProblems := Dashboard.totalProblems topicsData in
      let completedCount := Dashboard.completedCount userProgress in
      let locally :=
        {| Dashboard.total := of_nat totalProblems;
           Dashboard.stats_completed := of_nat completedCount;
           Dashboard.remaining :=
             PrimFloat.sub (of_nat totalProblems) (of_nat completedCount);
           Dashboard.percentage := percentageOf completedCount totalProblems |} in
      (forall remote, statsResponse = Fulfilled (Some remote) ->
                      gt (Dashboard.total remote) PrimFloat.zero = true ->
                      shown = remote) /\
      (forall remote, statsResponse = Fulfilled (Some remote) ->
                      gt (Dashboard.total remote) PrimFloat.zero = false ->
                      shown = locally) /\
      (statsResponse = Fulfilled None -> shown = locally) /\
      (statsResponse = Rejected -> shown = locally) /\
      (shown <> locally ->
       statsResponse = Fulfilled (Some shown) /\
       gt (Dashboard.total shown) PrimFloat.zero = true)) /\
  (topicsResponse = Rejected \/
   (exists topicsData,
       topicsResponse = Fulfilled topicsData /\
       Exists (fun t => problems t = None) topicsData) ->
   shown = Dashboard.zeroStats).
Proof.
  cbv zeta. split.
  - intros topicsData -> Hall.
    exact (stats_choice_when_topics_fetched topicsData statsResponse
             progressResponse st Hall).
  - intros [-> | [topicsData [-> Hmissing]]]; [reflexivity|].
    unfold Dashboard.fetchData.
    now rewrite (proj2 (topicsWithProgress_missing _ topicsData) Hmissing).
Qed.

Lemma displayed_stats_remote_local_or_zero_witness :
  let remote :=
    {| Dashboard.total := of_nat 10; Dashboard.stats_completed := of_nat 3;
       Dashboard.remaining := of_nat 7; Dashboard.percentage := of_nat 30 |} in
  Dashboard.stats
    (Dashboard.fetchData (Fulfilled [Sample.arrays; Sample.graphs])
       (Fulfilled (Some remote)) (Fulfilled Sample.progress_4_of_6) Dashboard.initial)
  = remote /\
  Dashboard.stats
    (Dashboard.fetchData
       (Fulfilled [Sample.arrays;
                   {| topic_id := "draft"; topic_title := "Draft"; problems := None |}])
       (Fulfilled (Some remote)) (Fulfilled Sample.progress_4_of_6) Dashboard.initial)
  = Dashboard.zeroStats.
Proof.
  split.
  - refine (proj1 (proj1 (displayed_stats_remote_local_or_zero
                            (Fulfilled [Sample.arrays; Sample.graphs])
                            (Fulfilled (Some _)) (Fulfilled Sample.progress_4_of_6)
                            Dashboard.initial)
                         [Sample.arrays; Sample.graphs] eq_refl _) _ eq_refl _).
    + repeat constructor; discriminate.
    + vm_compute. reflexivity.
  - refine (proj2 (displayed_stats_remote_local_or_zero
                     (Fulfilled [Sample.arrays;
                                 {| topic_id := "draft"; topic_title := "Draft";
                                    problems := None |}])
                     (Fulfilled (Some _)) (Fulfilled Sample.progress_4_of_6)
                     Dashboard.initial) _).
    right. eexists. split; [reflexivity|].
    apply List.Exists_cons_tl, List.Exists_cons_hd. reflexivity.
Defined.
